(** * cafe-qr: the booking form

    A shallow embedding of [src/pages/BookingForm.jsx]:

    - [generateZodSchema], which turns the admin-authored field list into a
      zod object schema, together with the fragment of zod (v3) and of the
      [zodResolver] that the schema is evaluated by;
    - the component's state ([useState] cells), the two asynchronous
      handlers [loadFormFields] and [onSubmit], and the part of the render
      function that decides what the user sees.

    Modelling conventions.
    - A JavaScript number is an integer [Z], or [NaN]; numbers print in
      decimal, as [String(n)] does for such integers.
    - A JavaScript string is a [string]; [.length] is [String.length].
    - [new Date(s)] and zod's e-mail regular expression belong to the
      JavaScript engine and to zod; they are taken as an [Engine].
    - A field definition has the properties of the data model: [min], [max]
      and [minLength] are absent or a number.
    - A record and the schema object are plain objects: a finite map of own
      properties, on top of what [Object.prototype] provides.
    - A state setter takes effect at once, and what is rendered is read off
      the current state. *)

From Stdlib Require Import Ascii String.
From stdpp Require Import gmap strings list fin_maps pretty.

Open Scope string_scope.
Open Scope Z_scope.

(** ** JavaScript values *)

Inductive value : Type :=
| VUndefined
| VNull
| VBool (b : bool)
| VNumber (n : Z)
| VNaN
| VString (s : string)
| VObject                 (* a plain object *)
| VFunction.              (* a function *)

(** ToBoolean. *)
Definition truthy (v : value) : bool :=
  match v with
  | VUndefined | VNull | VNaN => false
  | VBool b => b
  | VNumber n => negb (n =? 0)
  | VString s => negb (String.eqb s "")
  | VObject | VFunction => true
  end.

(** A record is a plain object, given by its own properties. What it
    inherits from [Object.prototype]: the built-in methods, and the accessor
    [__proto__], which reads as the prototype itself. *)
Definition Object_prototype_methods : list string :=
  [ "constructor"; "hasOwnProperty"; "isPrototypeOf"; "propertyIsEnumerable";
    "toLocaleString"; "toString"; "valueOf";
    "__defineGetter__"; "__defineSetter__"; "__lookupGetter__"; "__lookupSetter__" ].

Definition inherited (key : string) : value :=
  if String.eqb key "__proto__" then VObject
  else if bool_decide (key ∈ Object_prototype_methods) then VFunction
  else VUndefined.

(** Property read [data[key]] on a plain object: an own property, else the
    inherited one, else [undefined]. *)
Definition get (data : gmap string value) (key : string) : value :=
  match data !! key with
  | Some v => v
  | None => inherited key
  end.

(** What zod and the engine decide on strings: [emailRegex_test s] is
    [emailRegex.test(s)] of zod's [email] check, and [Date_isNaN s] is
    [isNaN(new Date(s).getTime())], the outcome of the engine's date
    parser. *)
Class Engine : Type := {
  emailRegex_test : string -> bool;
  Date_isNaN : string -> bool
}.

(** [isNaN(new Date(val).getTime())] on any value: a number is its own time
    value when it is within the range of time values, [null] and booleans
    convert to 0 and 1, [undefined] and [NaN] give [NaN]; a plain object
    converts to the string "[object Object]" and a function to its source
    text, which is not a date. *)
Definition isNaN_Date_getTime {E : Engine} (val : value) : bool :=
  match val with
  | VString s => Date_isNaN s
  | VNumber n => negb (Z.abs n <=? 8640000000000000)
  | VBool _ | VNull => false
  | VUndefined | VNaN => true
  | VObject => Date_isNaN "[object Object]"
  | VFunction => true
  end.

(** ** Field definitions *)

Module Field.
Record t : Type := mk {
  id : Z;
  name : string;
  label : string;
  type : string;
  required : bool;
  min : option Z;
  max : option Z;
  minLength : option Z
}.
End Field.

Abbreviation FieldDefinition := Field.t.

(** [n || d] for an optional number [n]: an absent property reads as
    [undefined], which is falsy, and so is 0. *)
Definition or_default (n : option Z) (d : Z) : Z :=
  match n with
  | Some k => if truthy (VNumber k) then k else d
  | None => d
  end.

(** ** The fragment of zod that the form uses *)

Module z.

Inductive StringCheck : Type :=
| check_min_length (value : Z) (message : string)
| check_email (message : string).

Inductive NumberCheck : Type :=
| check_min (value : Z) (message : string)
| check_max (value : Z) (message : string).

Record ZodString : Type := mkString { str_checks : list StringCheck }.

Record ZodNumber : Type := mkNumber {
  required_error : string;
  invalid_type_error : string;
  num_checks : list NumberCheck
}.

Inductive ZodType : Type :=
| ZString (s : ZodString)
| ZNumber (n : ZodNumber)
| ZEffects (schema : ZodType) (refinement : value -> bool) (message : string)
| ZOptional (innerType : ZodType).

(** *** Parsing *)

Inductive ParseStatus : Type := valid | dirty | aborted.

Record ParseReturn : Type := mkReturn {
  status : ParseStatus;
  issues : list string          (* the messages of the issues, in order *)
}.

Definition OK : ParseReturn := mkReturn valid [].
Definition INVALID (message : string) : ParseReturn := mkReturn aborted [message].

Definition getParsedType (data : value) : string :=
  match data with
  | VUndefined => "undefined"
  | VNull => "null"
  | VBool _ => "boolean"
  | VNumber _ => "number"
  | VNaN => "nan"
  | VString _ => "string"
  | VObject => "object"
  | VFunction => "function"
  end.

(** The default error map on an [invalid_type] issue. *)
Definition defaultError (expected : string) (data : value) : string :=
  match data with
  | VUndefined => "Required"
  | _ => "Expected " +:+ expected +:+ ", received " +:+ getParsedType data
  end.

Definition string_check_issue {E : Engine} (s : string) (c : StringCheck) : list string :=
  match c with
  | check_min_length n message =>
      if Z.of_nat (String.length s) <? n then [message] else []
  | check_email message =>
      if emailRegex_test s then [] else [message]
  end.

Definition number_check_issue (x : Z) (c : NumberCheck) : list string :=
  match c with
  | check_min n message => if x <? n then [message] else []
  | check_max n message => if n <? x then [message] else []
  end.

Definition of_issues (l : list string) : ParseReturn :=
  mkReturn (match l with [] => valid | _ => dirty end) l.

Definition parseString {E : Engine} (s : ZodString) (data : value) : ParseReturn :=
  match data with
  | VString str => of_issues (concat (map (string_check_issue str) (str_checks s)))
  | _ => INVALID (defaultError "string" data)
  end.

Definition parseNumber (s : ZodNumber) (data : value) : ParseReturn :=
  match data with
  | VNumber x => of_issues (concat (map (number_check_issue x) (num_checks s)))
  | VUndefined => INVALID (required_error s)
  | _ => INVALID (invalid_type_error s)
  end.

Fixpoint parse {E : Engine} (s : ZodType) (data : value) : ParseReturn :=
  match s with
  | ZString s => parseString s data
  | ZNumber s => parseNumber s data
  | ZEffects schema refinement message =>
      let inner := parse schema data in
      match status inner with
      | aborted => inner
      | _ =>
          if refinement data then inner
          else mkReturn dirty (issues inner ++ [message])
      end
  | ZOptional innerType =>
      match data with
      | VUndefined => OK
      | _ => parse innerType data
      end
  end.

(** [z.object(shape)]: a map from keys to schemas, the own keys of
    [shape]. Each key of the shape is parsed against [data[key]]; keys of
    [data] outside the shape are stripped. *)
Abbreviation ZodObject := (gmap string ZodType).

(** Builders: each returns a new schema with one more check. *)
Definition email (s : ZodString) (message : string) : ZodString :=
  mkString (str_checks s ++ [check_email message]).

Definition min_length (s : ZodString) (n : Z) (message : string) : ZodString :=
  mkString (str_checks s ++ [check_min_length n message]).

Definition number (required_error invalid_type_error : string) : ZodNumber :=
  mkNumber required_error invalid_type_error [].

Definition min (s : ZodNumber) (n : Z) (message : string) : ZodNumber :=
  mkNumber (required_error s) (invalid_type_error s)
           (num_checks s ++ [check_min n message]).

Definition max (s : ZodNumber) (n : Z) (message : string) : ZodNumber :=
  mkNumber (required_error s) (invalid_type_error s)
           (num_checks s ++ [check_max n message]).

Definition refine (s : ZodType) (check : value -> bool) (message : string) : ZodType :=
  ZEffects s check message.

Definition optional (s : ZodType) : ZodType := ZOptional s.

Definition string : ZodString := mkString [].

End z.

(** [zodResolver(schema)(values)]: the [errors] object, which keeps for
    every key the message of its first issue. *)
Definition zodResolver {E : Engine} (schema : z.ZodObject) (values : gmap string value)
  : gmap string string :=
  map_imap (fun key s => head (z.issues (z.parse s (get values key)))) schema.

(** The validator accepts a record when the resolver reports no error. *)
Definition accepts {E : Engine} (schema : z.ZodObject) (values : gmap string value) : Prop :=
  zodResolver schema values = ∅.

(** ** generateZodSchema *)

(** The [switch] on [field.type]: the schema built for one field. *)
Definition fieldSchema {E : Engine} (field : FieldDefinition) : z.ZodType :=
  let label := Field.label field in
  if String.eqb (Field.type field) "email" then
    z.ZString (z.email z.string (label +:+ " must be a valid email"))
  else if String.eqb (Field.type field) "number" then
    let fieldSchema :=
      z.number (label +:+ " is required") (label +:+ " must be a number") in
    let fieldSchema :=
      match Field.min field with
      | Some min => z.min fieldSchema min (label +:+ " must be at least " +:+ pretty min)
      | None => fieldSchema
      end in
    let fieldSchema :=
      match Field.max field with
      | Some max => z.max fieldSchema max (label +:+ " must be at most " +:+ pretty max)
      | None => fieldSchema
      end in
    z.ZNumber fieldSchema
  else if String.eqb (Field.type field) "date"
          || String.eqb (Field.type field) "datetime-local" then
    z.refine (z.ZString z.string)
             (fun val => negb (isNaN_Date_getTime val))
             (label +:+ " must be a valid date")
  else if String.eqb (Field.type field) "tel" then
    z.ZString (z.min_length z.string (or_default (Field.minLength field) 10)
                (label +:+ " must be at least "
                 +:+ pretty (or_default (Field.minLength field) 10) +:+ " characters"))
  else
    let fieldSchema := z.string in
    let fieldSchema :=
      match Field.minLength field with
      | Some minLength =>
          if truthy (VNumber minLength) then
            z.min_length fieldSchema minLength
              (label +:+ " must be at least " +:+ pretty minLength +:+ " characters")
          else fieldSchema
      | None => fieldSchema
      end in
    z.ZString fieldSchema.

(** The rule stored under the field's name. *)
Definition schemaEntry {E : Engine} (field : FieldDefinition) : z.ZodType :=
  if Field.required field then fieldSchema field else z.optional (fieldSchema field).

(** [schemaObject[key] = schema] on the plain object [schemaObject]. The key
    [__proto__] is the prototype accessor: assigning a schema (an object) to
    it replaces the prototype of [schemaObject] and adds no own key. Every
    other key becomes, or overwrites, an own property. *)
Definition assign (key : string) (schema : z.ZodType) (schemaObject : z.ZodObject)
  : z.ZodObject :=
  if String.eqb key "__proto__" then schemaObject
  else <[key := schema]> schemaObject.

Definition generateZodSchema {E : Engine} (fields : list FieldDefinition) : z.ZodObject :=
  foldl (fun schemaObject field => assign (Field.name field) (schemaEntry field) schemaObject)
        ∅ fields.

(** ** The component's state *)

Record State : Type := mkState {
  bookingId : option string;          (* [null] or the identifier *)
  formFields : list FieldDefinition;
  isLoading : bool;
  error : option string;              (* [null] or the message *)
  isSubmitting : bool;
  emailStatus : option string         (* [null] or the message *)
}.

(** The initial values of the [useState] cells. *)
Definition initialState : State :=
  {| bookingId := None; formFields := []; isLoading := true;
     error := None; isSubmitting := false; emailStatus := None |}.

Definition setBookingId (v : option string) (s : State) : State :=
  {| bookingId := v; formFields := formFields s; isLoading := isLoading s;
     error := error s; isSubmitting := isSubmitting s; emailStatus := emailStatus s |}.

Definition setFormFields (v : list FieldDefinition) (s : State) : State :=
  {| bookingId := bookingId s; formFields := v; isLoading := isLoading s;
     error := error s; isSubmitting := isSubmitting s; emailStatus := emailStatus s |}.

Definition setIsLoading (v : bool) (s : State) : State :=
  {| bookingId := bookingId s; formFields := formFields s; isLoading := v;
     error := error s; isSubmitting := isSubmitting s; emailStatus := emailStatus s |}.

Definition setError (v : option string) (s : State) : State :=
  {| bookingId := bookingId s; formFields := formFields s; isLoading := isLoading s;
     error := v; isSubmitting := isSubmitting s; emailStatus := emailStatus s |}.

Definition setIsSubmitting (v : bool) (s : State) : State :=
  {| bookingId := bookingId s; formFields := formFields s; isLoading := isLoading s;
     error := error s; isSubmitting := v; emailStatus := emailStatus s |}.

Definition setEmailStatus (v : option string) (s : State) : State :=
  {| bookingId := bookingId s; formFields := formFields s; isLoading := isLoading s;
     error := error s; isSubmitting := isSubmitting s; emailStatus := v |}.

(** ** Asynchronous handlers

    The collaborators imported from [../lib/firebase] and [../lib/email]
    are calls that settle with a value or reject with an error. *)

Record Settings : Type := mkSettings { fields : option (list FieldDefinition) }.

(** An error object, whose [message] may be missing. *)
Record JsError : Type := mkError { message : option string }.

(** What a promise rejects with and a [catch] receives: an error object (or
    any other value on which [.message] can be read), [null] or
    [undefined]. *)
Inductive rejection : Type :=
| ErrorObject (e : JsError)
| RejNull
| RejUndefined.

(** The TypeError that reading the property [prop] of [null] or [undefined]
    throws; the message is worded as V8 words it. *)
Definition TypeError_reading (base prop : string) : rejection :=
  ErrorObject
    (mkError (Some ("Cannot read properties of " +:+ base
                    +:+ " (reading '" +:+ prop +:+ "')"))).

Inductive callE : Type -> Type :=
| getFormFields : callE (option Settings)
| createBooking (data : gmap string value) : callE string
| sendBookingEmail (data : gmap string value) (id : string) : callE unit.

(** The body of an [async] function: state setters, [await]ed calls, a
    normal completion or a thrown error. *)
Inductive prog (A : Type) : Type :=
| Ret (a : A)
| Throw (e : rejection)
| SetState (u : State -> State) (k : prog A)
| Await {X : Type} (c : callE X) (k : X + rejection -> prog A).

Arguments Ret {A} a.
Arguments Throw {A} e.
Arguments SetState {A} u k.
Arguments Await {A X} c k.

Fixpoint bind {A B : Type} (f : A -> prog B) (p : prog A) : prog B :=
  match p with
  | Ret a => f a
  | Throw e => Throw e
  | SetState u k => SetState u (bind f k)
  | Await c k => Await c (fun r => bind f (k r))
  end.

(** Sequencing is written [x ← p; q] and [p;; q]. *)
#[global] Instance prog_ret : MRet prog := @Ret.
#[global] Instance prog_bind : MBind prog := @bind.

Definition set (u : State -> State) : prog unit := SetState u (Ret tt).

(** [await c]: the value the call settles with; a rejection is thrown. *)
Definition await {X : Type} (c : callE X) : prog X :=
  Await c (fun r => match r with inl x => Ret x | inr e => Throw e end).

(** [try { p } catch (e) { h e }]. *)
Fixpoint try_catch {A : Type} (p : prog A) (h : rejection -> prog A) : prog A :=
  match p with
  | Ret a => Ret a
  | Throw e => h e
  | SetState u k => SetState u (try_catch k h)
  | Await c k => Await c (fun r => try_catch (k r) h)
  end.

(** [try { p } finally { f }]: [f] runs on both exits and the completion of
    [p] is kept, unless [f] itself throws. *)
Fixpoint try_finally {A : Type} (p : prog A) (f : prog unit) : prog A :=
  match p with
  | Ret a => f;; Ret a
  | Throw e => f;; Throw e
  | SetState u k => SetState u (try_finally k f)
  | Await c k => Await c (fun r => try_finally (k r) f)
  end.

(** The default fields of [loadFormFields]. *)
Definition DEFAULT_FIELDS : list FieldDefinition :=
  [ Field.mk 1 "fullName" "Full Name" "text" true None None (Some 2);
    Field.mk 2 "email" "Email" "email" true None None None;
    Field.mk 3 "date" "Date & Time" "datetime-local" true None None None ].

(** [settings?.fields], when truthy (an array is truthy, also when empty). *)
Definition settings_fields (settings : option Settings) : option (list FieldDefinition) :=
  match settings with
  | Some st => fields st
  | None => None
  end.

(** The effect run on mount. The [console.error] calls of the handlers
    write to the console only and are left out. *)
Definition loadFormFields : prog unit :=
  try_finally
    (try_catch
       (settings ← await getFormFields;
        match settings_fields settings with
        | Some l => set (setFormFields l)
        | None => set (setFormFields DEFAULT_FIELDS)
        end)
       (fun err => set (setError (Some "Failed to load form. Please try again later."))))
    (set (setIsLoading false)).

(** The object that [error.message] is read on: on [null] and [undefined]
    the read throws a TypeError. *)
Definition reading_message (error : rejection) : prog JsError :=
  match error with
  | ErrorObject e => Ret e
  | RejNull => Throw (TypeError_reading "null" "message")
  | RejUndefined => Throw (TypeError_reading "undefined" "message")
  end.

(** [error.message || 'Failed to create booking. Please try again.']. *)
Definition message_or (e : JsError) (fallback : string) : string :=
  match message e with
  | Some m => if truthy (VString m) then m else fallback
  | None => fallback
  end.

Definition onSubmit (data : gmap string value) : prog unit :=
  try_finally
    (try_catch
       (set (setError None);;
        set (setIsSubmitting true);;
        set (setEmailStatus None);;
        id ← await (createBooking data);
        (if truthy (get data "email") then
           try_catch
             (await (sendBookingEmail data id);;
              set (setEmailStatus (Some "Confirmation email sent!")))
             (fun emailError =>
                set (setEmailStatus (Some "Booking confirmed but email delivery failed.")))
         else Ret tt);;
        set (setBookingId (Some id)))
       (fun error =>
          e ← reading_message error;
          set (setError (Some (message_or e "Failed to create booking. Please try again.")))))
    (set (setIsSubmitting false)).

(** ** Running a handler *)

(** The collaborators: what each call settles with. *)
Definition World : Type := forall X : Type, callE X -> X + rejection.

Inductive call : Type :=
| Call {X : Type} (c : callE X).

Definition is_createBooking (c : call) : bool :=
  match c with
  | Call (createBooking _) => true
  | Call _ => false
  end.

Definition is_sendBookingEmail (c : call) : bool :=
  match c with
  | Call (sendBookingEmail _ _) => true
  | Call _ => false
  end.

(** [run w p s log]: the handler [p] run to completion from the state [s],
    every awaited call answered by [w] and appended to [log]. *)
Fixpoint run {A : Type} (w : World) (p : prog A) (s : State) (log : list call)
  : (A + rejection) * State * list call :=
  match p with
  | Ret a => (inl a, s, log)
  | Throw e => (inr e, s, log)
  | SetState u k => run w k (u s) log
  | Await c k => run w (k (w _ c)) s (log ++ [Call c])
  end.

(** ** What is rendered *)

(** The truth value of a state cell that holds [null] or a string. *)
Definition truthy_cell (c : option string) : bool :=
  match c with
  | Some m => truthy (VString m)
  | None => false
  end.

Inductive View : Type := Spinner | FormView | ConfirmationView.

(** [if (isLoading) return spinner], then [!bookingId ? form : confirmation]. *)
Definition view (s : State) : View :=
  if isLoading s then Spinner
  else if negb (truthy_cell (bookingId s)) then FormView
  else ConfirmationView.

(** The error banner, [{error && ...}]. *)
Definition errorBanner (s : State) : option string :=
  if isLoading s then None
  else if truthy_cell (error s) then error s else None.

(** [disabled={isSubmitting}] on the submit button. *)
Definition submitDisabled (s : State) : bool := isSubmitting s.

(** [str.includes(sub)]. *)
Fixpoint includes (str sub : string) : bool :=
  String.prefix sub str
  || match str with
     | EmptyString => false
     | String _ rest => includes rest sub
     end.

(** The phases and the notification status of the specification, read off
    the state cells the way the render function reads them. *)
Inductive Phase : Type := Loading | Ready | Submitting | Confirmed | Failed.

Definition phase (s : State) : Phase :=
  if isLoading s then Loading
  else if truthy_cell (bookingId s) then Confirmed
  else if isSubmitting s then Submitting
  else if truthy_cell (error s) then Failed
  else Ready.

Inductive NotificationStatus : Type := NotNotified | Sent | Skipped | DeliveryFailed.

Definition notificationStatus (s : State) : NotificationStatus :=
  match phase s with
  | Confirmed =>
      match emailStatus s with
      | None => Skipped
      | Some m => if includes m "failed" then DeliveryFailed else Sent
      end
  | _ => NotNotified
  end.

(** ** The session: handlers in flight

    A session holds the state cells, the [errors] of the form, the calls
    issued so far and the handlers suspended at an [await]. *)

Inductive task : Type :=
| Waiting {X : Type} (c : callE X) (k : X + rejection -> prog unit).

Record Session : Type := mkSession {
  state : State;
  errors : gmap string string;
  calls : list call;
  pending : list task
}.

(** A handler runs until it completes or reaches an [await]; there the call
    is issued and the rest of the handler is parked. *)
Fixpoint start (p : prog unit) (σ : Session) : Session :=
  match p with
  | Ret _ | Throw _ => σ
  | SetState u k => start k (mkSession (u (state σ)) (errors σ) (calls σ) (pending σ))
  | Await c k =>
      mkSession (state σ) (errors σ) (calls σ ++ [Call c]) (pending σ ++ [Waiting c k])
  end.

(** The [i]-th pending call settles and its handler goes on. *)
Definition settle (w : World) (i : nat) (σ : Session) : Session :=
  match pending σ !! i with
  | Some (Waiting c k) =>
      start (k (w _ c)) (mkSession (state σ) (errors σ) (calls σ) (delete i (pending σ)))
  | None => σ
  end.

Definition mount : Session := start loadFormFields (mkSession initialState ∅ [] []).

(** [handleSubmit(onSubmit)]: the resolver of the current render validates
    the values; [onSubmit] is called with the parsed values (the keys of the
    schema) when there is no error, otherwise the errors are stored. *)
Definition handleSubmit {E : Engine} (values : gmap string value) (σ : Session) : Session :=
  let schema := generateZodSchema (formFields (state σ)) in
  let errs := zodResolver schema values in
  if decide (errs = ∅) then
    start (onSubmit (filter (fun kv => is_Some (schema !! kv.1)) values))
          (mkSession (state σ) ∅ (calls σ) (pending σ))
  else mkSession (state σ) errs (calls σ) (pending σ).

(** A click on the submit button: the form must be on screen and the button
    enabled. *)
Definition click {E : Engine} (values : gmap string value) (σ : Session) : Session :=
  match view (state σ) with
  | FormView => if submitDisabled (state σ) then σ else handleSubmit values σ
  | _ => σ
  end.

(** ** An engine to evaluate examples with

    A stand-in for the engine, used only to run the definitions on concrete
    inputs: it knows plain addresses [name@host.tld] made of ASCII letters
    and digits, and dates written [YYYY-MM-DD] or [YYYY-MM-DDTHH:MM] (what a
    [date] or [datetime-local] input submits). *)

Module Sample.

Definition is_digit (c : ascii) : bool :=
  let n := nat_of_ascii c in (48 <=? n)%nat && (n <=? 57)%nat.

Definition is_alnum (c : ascii) : bool :=
  let n := nat_of_ascii c in
  is_digit c || ((65 <=? n)%nat && (n <=? 90)%nat) || ((97 <=? n)%nat && (n <=? 122)%nat).

Fixpoint all_alnum (s : string) : bool :=
  match s with
  | EmptyString => true
  | String c rest => is_alnum c && all_alnum rest
  end.

(** The text before and after the first occurrence of [sep]. *)
Fixpoint split_at (sep : ascii) (s : string) : option (string * string) :=
  match s with
  | EmptyString => None
  | String c rest =>
      if Ascii.eqb c sep then Some (EmptyString, rest)
      else match split_at sep rest with
           | Some (l, r) => Some (String c l, r)
           | None => None
           end
  end.

Definition word (s : string) : bool :=
  negb (String.eqb s "") && all_alnum s.

Definition email (s : string) : bool :=
  match split_at "@" s with
  | Some (local, domain) =>
      match split_at "." domain with
      | Some (host, tld) =>
          word local && word host && all_alnum tld
          && (2 <=? String.length tld)%nat
      | None => false
      end
  | None => false
  end.

(** [shape pat s]: [s] has the shape [pat], where [d] stands for a digit
    and every other character for itself. *)
Fixpoint shape (pat s : string) : bool :=
  match pat, s with
  | EmptyString, EmptyString => true
  | String p pat', String c s' =>
      (if Ascii.eqb p "d" then is_digit c else Ascii.eqb p c) && shape pat' s'
  | _, _ => false
  end.

(** The number written by the two digits at position [i]. *)
Definition two_digits (i : nat) (s : string) : nat :=
  match String.get i s, String.get (S i) s with
  | Some a, Some b => (nat_of_ascii a - 48) * 10 + (nat_of_ascii b - 48)
  | _, _ => 0
  end%nat.

Definition date_ok (s : string) : bool :=
  let month := two_digits 5 s in
  let day := two_digits 8 s in
  (1 <=? month)%nat && (month <=? 12)%nat && (1 <=? day)%nat && (day <=? 31)%nat.

Definition valid_date (s : string) : bool :=
  (shape "dddd-dd-dd" s && date_ok s)
  || (shape "dddd-dd-ddTdd:dd" s && date_ok s
      && (two_digits 11 s <=? 23)%nat && (two_digits 14 s <=? 59)%nat).

Definition engine : Engine :=
  {| emailRegex_test := email; Date_isNaN := fun s => negb (valid_date s) |}.

End Sample.

(** ** Derived notions used in the statements *)

(** The message, if any, that the compiled rule of [field] yields on the
    value [v]. *)
Definition fieldError {E : Engine} (field : FieldDefinition) (v : value) : option string :=
  head (z.issues (z.parse (schemaEntry field) v)).

(** [field] with its [minLength] property replaced. *)
Definition with_minLength (v : option Z) (field : FieldDefinition) : FieldDefinition :=
  Field.mk (Field.id field) (Field.name field) (Field.label field) (Field.type field)
           (Field.required field) (Field.min field) (Field.max field) v.

(** The types that [generateZodSchema] has a case for. *)
Definition known_types : list string :=
  ["email"; "number"; "date"; "datetime-local"; "tel"].

(** The state a handler ends in and the calls it issues, from a fresh log. *)
Definition final_state {A : Type} (w : World) (p : prog A) (s : State) : State :=
  (run w p s []).1.2.

Definition issued {A : Type} (w : World) (p : prog A) (s : State) : list call :=
  (run w p s []).2.

(** Type, required flag and minLength of a field. *)
Definition describe (field : FieldDefinition) : string * bool * option Z :=
  (Field.type field, Field.required field, Field.minLength field).

(** The head of the pending queue settles [n] times in a row. *)
Fixpoint settle_head (w : World) (n : nat) (σ : Session) : Session :=
  match n with
  | O => σ
  | S n' => settle_head w n' (settle w 0 σ)
  end.

(** The default list as the specification words it: the type, the required
    flag and the minLength of its three fields. *)
Definition spec_default_fields : list (string * bool * option Z) :=
  [("text", true, Some 2); ("email", true, None); ("datetime", true, None)].

(** ** Concrete fields, records and collaborators for the examples *)

Module Ex.

Definition guests : FieldDefinition :=
  Field.mk 4 "guests" "Guests" "number" true (Some 5) (Some 10) None.

Definition phone : FieldDefinition :=
  Field.mk 5 "phone" "Phone" "tel" false None None None.

Definition nickname : FieldDefinition :=
  Field.mk 6 "nickname" "Nickname" "text" true None None None.

Definition contact : FieldDefinition :=
  Field.mk 7 "contact" "Contact" "email" false None None None.

Definition when : FieldDefinition :=
  Field.mk 8 "when" "When" "datetime" true None None None.

Definition day : FieldDefinition :=
  Field.mk 9 "day" "Day" "date" false None None None.

Definition booking : gmap string value :=
  {[ "fullName" := VString "Ann";
     "email" := VString "ann@example.org";
     "date" := VString "2024-05-01T10:30" ]}.

(** No field configuration; bookings are created as B123; mail fails. *)
Definition store_empty : World :=
  fun X c =>
    match c in callE X return X + rejection with
    | getFormFields => inl None
    | createBooking _ => inl "B123"
    | sendBookingEmail _ _ => inr (ErrorObject (mkError (Some "mailbox unavailable")))
    end.

(** The store is unreachable. *)
Definition store_down : World :=
  fun X c =>
    match c in callE X return X + rejection with
    | getFormFields => inr (ErrorObject (mkError (Some "unavailable")))
    | createBooking _ => inr (ErrorObject (mkError (Some "permission-denied")))
    | sendBookingEmail _ _ => inl tt
    end.

(** The state and the session once the default form is on screen. *)
Definition ready_state : State := final_state store_empty loadFormFields initialState.

Definition ready : Session := settle store_empty 0 mount.

End Ex.

(** ** Further notions used in the statements *)

(** [field] with its [required] flag, or its [type], replaced. *)
Definition with_required (b : bool) (field : FieldDefinition) : FieldDefinition :=
  Field.mk (Field.id field) (Field.name field) (Field.label field) (Field.type field)
           b (Field.min field) (Field.max field) (Field.minLength field).

Definition with_type (t : string) (field : FieldDefinition) : FieldDefinition :=
  Field.mk (Field.id field) (Field.name field) (Field.label field) t
           (Field.required field) (Field.min field) (Field.max field)
           (Field.minLength field).

(** The values that [handleSubmit] hands to [onSubmit]: those under the
    names of the fields of the form. *)
Definition submitted {E : Engine} (fields : list FieldDefinition)
           (values : gmap string value) : gmap string value :=
  filter (fun kv => is_Some (generateZodSchema fields !! kv.1)) values.

(** [<QRCodeGenerator value={bookingId} />]: the value of the QR code, when
    the confirmation is on screen. *)
Definition qrValue (s : State) : option string :=
  match view s with
  | ConfirmationView => bookingId s
  | _ => None
  end.

(** The result of a handler: its promise is fulfilled or rejected. *)
Definition outcome {A : Type} (w : World) (p : prog A) (s : State) : A + rejection :=
  (run w p s []).1.1.

Module More.

Definition note : FieldDefinition :=
  Field.mk 10 "note" "Note" "textarea" false None None (Some 3).

Definition mobile : FieldDefinition :=
  Field.mk 11 "mobile" "Mobile" "tel" true None None (Some 7).

Definition party : FieldDefinition :=
  Field.mk 12 "party" "Party" "number" true (Some 10) (Some 5) None.

(** A field named after the prototype accessor. *)
Definition proto : FieldDefinition :=
  Field.mk 15 "__proto__" "Proto" "text" true None None None.

(** Two fields under the same name. *)
Definition seats_text : FieldDefinition :=
  Field.mk 13 "seats" "Seats" "text" false None None None.

Definition seats_number : FieldDefinition :=
  Field.mk 14 "seats" "Seats" "number" true (Some 1) None None.

(** Bookings are created as B123 and the mail goes out. *)
Definition store_ok : World :=
  fun X c =>
    match c in callE X return X + rejection with
    | getFormFields => inl (Some (mkSettings (Some [Ex.guests; Ex.phone])))
    | createBooking _ => inl "B123"
    | sendBookingEmail _ _ => inl tt
    end.

Definition walk_in : gmap string value :=
  {[ "fullName" := VString "Ann"; "date" := VString "2024-05-01T10:30" ]}.

End More.

(** * Properties *)

(** ** The schema compiler *)

Section Compiler.
Context {E : Engine}.

Lemma generateZodSchema_snoc (fields : list FieldDefinition) (field : FieldDefinition) :
  generateZodSchema (fields ++ [field])
  = assign (Field.name field) (schemaEntry field) (generateZodSchema fields).
Proof. unfold generateZodSchema. by rewrite foldl_app. Qed.

Lemma assign_key (key : string) (schema : z.ZodType) (schemaObject : z.ZodObject) :
  key <> "__proto__" -> assign key schema schemaObject = <[key := schema]> schemaObject.
Proof. intros Hkey. unfold assign. by apply String.eqb_neq in Hkey as ->. Qed.

Lemma assign_proto (schema : z.ZodType) (schemaObject : z.ZodObject) :
  assign "__proto__" schema schemaObject = schemaObject.
Proof. reflexivity. Qed.

(** The name [__proto__] is never a key of the schema. *)
Lemma generateZodSchema_proto (fields : list FieldDefinition) :
  generateZodSchema fields !! "__proto__" = None.
Proof.
  induction fields as [|field fields IH] using rev_ind; [done|].
  rewrite generateZodSchema_snoc.
  destruct (decide (Field.name field = "__proto__")) as [-> | Hne].
  - by rewrite assign_proto.
  - rewrite assign_key by done. by rewrite lookup_insert_ne.
Qed.

Lemma generateZodSchema_dom (fields : list FieldDefinition) :
  dom (generateZodSchema fields)
  = list_to_set (filter (fun name => name <> "__proto__") (Field.name <$> fields)).
Proof.
  induction fields as [|field fields IH] using rev_ind.
  - unfold generateZodSchema; simpl. by rewrite dom_empty_L.
  - rewrite generateZodSchema_snoc, fmap_app, filter_app, list_to_set_app_L. simpl.
    destruct (decide (Field.name field = "__proto__")) as [Heq | Hne].
    + rewrite Heq, assign_proto, IH, filter_cons_False by (by intros ?).
      simpl. by rewrite (right_id_L ∅ (∪)).
    + rewrite assign_key, dom_insert_L, IH, filter_cons_True by done.
      simpl. rewrite (right_id_L ∅ (∪)). apply (comm_L (∪)).
Qed.

Lemma generateZodSchema_lookup (fields : list FieldDefinition) (field : FieldDefinition) :
  NoDup (Field.name <$> fields) -> field ∈ fields -> Field.name field <> "__proto__" ->
  generateZodSchema fields !! Field.name field = Some (schemaEntry field).
Proof.
  induction fields as [|last fields IH] using rev_ind; intros Hnd Hin Hname.
  - by apply elem_of_nil in Hin.
  - rewrite generateZodSchema_snoc.
    rewrite fmap_app in Hnd. apply NoDup_app in Hnd as (Hnd & Hfresh & _).
    apply elem_of_app in Hin as [Hin | Hin].
    + assert (Field.name last <> Field.name field) as Hne.
      { intros Heq. apply (Hfresh (Field.name field)).
        - by apply list_elem_of_fmap_2.
        - rewrite <- Heq. simpl. apply list_elem_of_here. }
      unfold assign. destruct (String.eqb (Field.name last) "__proto__"); [by apply IH|].
      rewrite lookup_insert_ne; [by apply IH | done].
    + apply list_elem_of_singleton in Hin as ->.
      rewrite assign_key by done. by rewrite lookup_insert_eq.
Qed.

(** On a field list with unique names the resolver reports, under the name
    of each field that has a key, what the field's own rule yields. *)
Lemma zodResolver_field (fields : list FieldDefinition) (values : gmap string value)
      (field : FieldDefinition) :
  NoDup (Field.name <$> fields) -> field ∈ fields -> Field.name field <> "__proto__" ->
  zodResolver (generateZodSchema fields) values !! Field.name field
  = fieldError field (get values (Field.name field)).
Proof.
  intros Hnd Hin Hname. unfold zodResolver.
  rewrite map_lookup_imap, (generateZodSchema_lookup _ _ Hnd Hin Hname). done.
Qed.

Lemma filter_without_proto (names : list string) :
  "__proto__" ∉ names -> filter (fun name => name <> "__proto__") names = names.
Proof.
  induction names as [|name names IH]; intros Hproto; [done|].
  apply not_elem_of_cons in Hproto as [Hne Hproto].
  rewrite filter_cons_True by done. by rewrite IH.
Qed.

Lemma parse_optional_undefined (base : z.ZodType) :
  z.parse (z.optional base) VUndefined = z.OK.
Proof. reflexivity. Qed.

End Compiler.

Lemma append_inj_l (p a b : string) : p +:+ a = p +:+ b -> a = b.
Proof. induction p as [|c p IH]; simpl; intros Heq; [done|]. injection Heq. done. Qed.

Lemma unknown_type_eqb (t : string) :
  t ∉ known_types ->
  String.eqb t "email" = false /\ String.eqb t "number" = false
  /\ String.eqb t "date" = false /\ String.eqb t "datetime-local" = false
  /\ String.eqb t "tel" = false.
Proof.
  unfold known_types. intros Hnot.
  repeat split; apply String.eqb_neq; intros ->; apply Hnot; set_solver.
Qed.

Section CompilerClaims.
Context {E : Engine}.

(** X25. For every field list with unique names, none of them [__proto__],
    the compiled validator has exactly the fields' names as its keys, and
    under each name the rule compiled from that field; the validator
    compiled from the empty list accepts every input record. *)
Theorem generateZodSchema_keys (fields : list FieldDefinition) :
  NoDup (Field.name <$> fields) -> "__proto__" ∉ Field.name <$> fields ->
  dom (generateZodSchema fields) = list_to_set (Field.name <$> fields)
  /\ (forall field, field ∈ fields ->
        generateZodSchema fields !! Field.name field = Some (schemaEntry field))
  /\ (forall values, accepts (generateZodSchema []) values).
Proof.
  intros Hnd Hproto. split; [|split].
  - by rewrite generateZodSchema_dom, filter_without_proto.
  - intros field Hin. apply generateZodSchema_lookup; [done..|].
    intros Heq. apply Hproto. rewrite <- Heq. by apply list_elem_of_fmap_2.
  - intros values. unfold accepts, zodResolver, generateZodSchema. simpl.
    apply map_imap_empty.
Qed.

(** X26. For every compiled field (not named [__proto__]) of a list with
    unique names and every input record in which the field's value reads
    as [undefined]: a required field yields a violation, whose message is
    "{label} is required" for a number field and zod's "Required" for
    every other type; a field that is not required yields no violation,
    whatever its type, and its base rule is not evaluated. *)
Theorem absent_value_required_optional
        (fields : list FieldDefinition) (values : gmap string value)
        (field : FieldDefinition) :
  NoDup (Field.name <$> fields) -> field ∈ fields ->
  Field.name field <> "__proto__" ->
  get values (Field.name field) = VUndefined ->
  (Field.required field = true ->
     zodResolver (generateZodSchema fields) values !! Field.name field
     = Some (if String.eqb (Field.type field) "number"
             then Field.label field +:+ " is required" else "Required"))
  /\ (Field.required field = false ->
        zodResolver (generateZodSchema fields) values !! Field.name field = None
        /\ forall base, z.parse (z.optional base) VUndefined = z.OK).
Proof.
  intros Hnd Hin Hname Habsent.
  rewrite (zodResolver_field _ _ _ Hnd Hin Hname), Habsent.
  unfold fieldError, schemaEntry. split; intros ->.
  - unfold fieldSchema.
    destruct (String.eqb_spec (Field.type field) "number") as [-> | _].
    { by destruct (Field.min field), (Field.max field). }
    destruct (String.eqb (Field.type field) "email"); [done|].
    destruct (String.eqb (Field.type field) "date"
              || String.eqb (Field.type field) "datetime-local"); [done|].
    destruct (String.eqb (Field.type field) "tel"); [done|].
    destruct (Field.minLength field) as [n|]; [|done].
    by destruct (truthy (VNumber n)).
  - split; [done|]. intros base. apply parse_optional_undefined.
Qed.

(** C6, amended. For every field whose type is [date] or
    [datetime-local], the compiled rule accepts a string value exactly
    when [new Date(value)] is a valid date, and rejects any other string
    with "{label} must be a valid date". *)
Theorem date_rule (field : FieldDefinition) (s : string) :
  Field.type field = "date" \/ Field.type field = "datetime-local" ->
  (fieldError field (VString s) = None <-> Date_isNaN s = false)
  /\ (Date_isNaN s = true ->
        fieldError field (VString s) = Some (Field.label field +:+ " must be a valid date")).
Proof.
  intros Htype. unfold fieldError, schemaEntry, fieldSchema.
  assert (String.eqb (Field.type field) "email" = false
          /\ String.eqb (Field.type field) "number" = false
          /\ String.eqb (Field.type field) "date"
             || String.eqb (Field.type field) "datetime-local" = true)
    as (-> & -> & ->) by (by destruct Htype as [-> | ->]).
  destruct (Field.required field); simpl; destruct (Date_isNaN s); simpl;
    split; try split; done.
Qed.

(** C7. For every compiled number field, a value that is present and is
    not a number yields "{label} must be a number", which differs from
    both range messages; with min 5 and max 10, the value 3 yields the
    lower range violation, 7 validates and 12 yields the upper range
    violation. *)
Theorem number_rule (field : FieldDefinition) :
  Field.type field = "number" ->
  (forall v, v <> VUndefined -> (forall n, v <> VNumber n) ->
     fieldError field v = Some (Field.label field +:+ " must be a number"))
  /\ (forall n : Z,
        Field.label field +:+ " must be a number"
        <> Field.label field +:+ " must be at least " +:+ pretty n
        /\ Field.label field +:+ " must be a number"
           <> Field.label field +:+ " must be at most " +:+ pretty n)
  /\ (Field.min field = Some 5 -> Field.max field = Some 10 ->
        fieldError field (VNumber 3) = Some (Field.label field +:+ " must be at least 5")
        /\ fieldError field (VNumber 7) = None
        /\ fieldError field (VNumber 12) = Some (Field.label field +:+ " must be at most 10")).
Proof.
  intros Htype. unfold fieldError, schemaEntry, fieldSchema. rewrite Htype. simpl.
  split; [|split].
  - intros v Hdef Hnum.
    destruct (Field.required field), (Field.min field), (Field.max field), v;
      simpl; try done; by destruct (Hnum n).
  - intros n. split; intros Heq; apply append_inj_l in Heq; discriminate Heq.
  - intros -> ->. by destruct (Field.required field).
Qed.

(** C8. For every compiled tel field with no minLength, the rule accepts
    a string exactly when it has at least 10 characters: it rejects
    every 5-character string and accepts every 10-character string. *)
Theorem tel_rule_default_length (field : FieldDefinition) (s : string) :
  Field.type field = "tel" -> Field.minLength field = None ->
  (fieldError field (VString s) = None <-> (10 <= String.length s)%nat)
  /\ (String.length s = 5%nat ->
        fieldError field (VString s)
        = Some (Field.label field +:+ " must be at least 10 characters"))
  /\ (String.length s = 10%nat -> fieldError field (VString s) = None).
Proof.
  intros Htype Hlen. unfold fieldError, schemaEntry, fieldSchema.
  rewrite Htype, Hlen. simpl.
  assert (forall b : bool,
            head (z.issues (z.parse (if b then z.ZString (z.min_length z.string 10
                     (Field.label field +:+ " must be at least 10 characters"))
                   else z.optional (z.ZString (z.min_length z.string 10
                     (Field.label field +:+ " must be at least 10 characters"))))
                  (VString s)))
            = if Z.of_nat (String.length s) <? 10
              then Some (Field.label field +:+ " must be at least 10 characters")
              else None) as Hrule.
  { intros [|]; simpl; by destruct (Z.of_nat (String.length s) <? 10). }
  rewrite Hrule. clear Hrule.
  split; [|split].
  - destruct (Z.ltb_spec (Z.of_nat (String.length s)) 10); split; intros; try done; lia.
  - by intros ->.
  - by intros ->.
Qed.

(** C10. A minLength of 0 is compiled exactly like an absent minLength:
    a tel field gets the default minimum length 10, and a text field, or
    a field of a type without a case, gets no length constraint. *)
Theorem minLength_zero_as_absent (field : FieldDefinition) :
  schemaEntry (with_minLength (Some 0) field) = schemaEntry (with_minLength None field)
  /\ (Field.type field = "tel" ->
        fieldSchema (with_minLength (Some 0) field)
        = z.ZString (z.min_length z.string 10
                       (Field.label field +:+ " must be at least 10 characters")))
  /\ (Field.type field ∉ known_types ->
        fieldSchema (with_minLength (Some 0) field) = z.ZString z.string).
Proof.
  split; [done|]. split.
  - intros Htype. unfold fieldSchema. simpl. by rewrite Htype.
  - intros Htype. apply unknown_type_eqb in Htype as (He & Hn & Hd & Hl & Ht).
    unfold fieldSchema. simpl. by rewrite He, Hn, Hd, Hl, Ht.
Qed.

End CompilerClaims.

(** ** The submission handlers *)

(** A handler started in a session with nothing else in flight, whose calls
    then settle one after the other, ends as [run] says. *)
Lemma start_settle_run (w : World) (p : prog unit) (σ : Session) :
  pending σ = [] ->
  exists n, settle_head w n (start p σ)
            = mkSession (run w p (state σ) (calls σ)).1.2 (errors σ)
                        (run w p (state σ) (calls σ)).2 [].
Proof.
  revert σ. induction p as [a | e | u k IH | X c k IH]; intros [s errs log pend] Hp;
    simpl in Hp; subst pend.
  - by exists 0%nat.
  - by exists 0%nat.
  - simpl. apply (IH (mkSession (u s) errs log [])). done.
  - destruct (IH (w X c) (mkSession s errs (log ++ [Call c]) []) eq_refl) as [n Hn].
    exists (S n). simpl in *. exact Hn.
Qed.

(** Every run of [onSubmit] issues [createBooking] first and once, and
    [sendBookingEmail] at most once, after [createBooking] has settled with
    the identifier that is passed on. *)
Lemma onSubmit_calls (w : World) (data : gmap string value) (s : State) :
  issued w (onSubmit data) s = [Call (createBooking data)]
  \/ exists id, w _ (createBooking data) = inl id
                /\ issued w (onSubmit data) s
                   = [Call (createBooking data); Call (sendBookingEmail data id)].
Proof.
  unfold issued, onSubmit. simpl.
  destruct (w _ (createBooking data)) as [id | e] eqn:Hcreate; simpl;
    [|by destruct e; left].
  destruct (truthy (get data "email")); simpl; [|by left].
  right. exists id. split; [done|].
  by destruct (w _ (sendBookingEmail data id)) as [[] | e'].
Qed.

(** C1. For every submission from the form in which createBooking succeeds
    with a (non-empty) identifier X and the record holds a non-empty email,
    a failing notifier leaves the session Confirmed with bookingId X and
    notification status DeliveryFailed: no error is set and the phase is
    not Failed. *)
Theorem notifier_failure_keeps_confirmation
        (w : World) (s : State) (data : gmap string value) (X email : string)
        (e : rejection) :
  view s = FormView ->
  w _ (createBooking data) = inl X -> X <> "" ->
  data !! "email" = Some (VString email) -> email <> "" ->
  w _ (sendBookingEmail data X) = inr e ->
  phase (final_state w (onSubmit data) s) = Confirmed
  /\ bookingId (final_state w (onSubmit data) s) = Some X
  /\ notificationStatus (final_state w (onSubmit data) s) = DeliveryFailed
  /\ emailStatus (final_state w (onSubmit data) s)
     = Some "Booking confirmed but email delivery failed."
  /\ error (final_state w (onSubmit data) s) = None
  /\ phase (final_state w (onSubmit data) s) <> Failed
  /\ issued w (onSubmit data) s
     = [Call (createBooking data); Call (sendBookingEmail data X)].
Proof.
  intros Hview Hcreate HX Hemail Hne Hsend.
  assert (truthy (get data "email") = true) as Htruthy.
  { unfold get. rewrite Hemail. simpl. by apply negb_true_iff, String.eqb_neq. }
  assert (isLoading s = false) as Hload.
  { unfold view in Hview. by destruct (isLoading s). }
  assert (String.eqb X "" = false) as HtX by (by apply String.eqb_neq).
  unfold final_state, issued, onSubmit. simpl.
  rewrite Hcreate. simpl. rewrite Htruthy. simpl. rewrite Hsend. simpl.
  unfold notificationStatus, phase. simpl. rewrite Hload, HtX.
  repeat split; done.
Qed.

(** C3. For every submission from the form in which createBooking fails
    (it rejects with an error, the StoreError of the interface), the session
    ends in Failed, carrying the store's message or the generic one, the
    booking identifier stays unset, and createBooking is the only call
    issued: the notifier is not called. *)
Theorem creation_failure_no_notification
        (w : World) (s : State) (data : gmap string value) (e : JsError) :
  view s = FormView ->
  w _ (createBooking data) = inr (ErrorObject e) ->
  phase (final_state w (onSubmit data) s) = Failed
  /\ error (final_state w (onSubmit data) s)
     = Some (message_or e "Failed to create booking. Please try again.")
  /\ bookingId (final_state w (onSubmit data) s) = bookingId s
  /\ issued w (onSubmit data) s = [Call (createBooking data)]
  /\ filter is_sendBookingEmail (issued w (onSubmit data) s) = [].
Proof.
  intros Hview Hcreate.
  assert (isLoading s = false /\ truthy_cell (bookingId s) = false) as [Hload Hid].
  { unfold view in Hview. destruct (isLoading s); [done|].
    by destruct (truthy_cell (bookingId s)). }
  assert (truthy_cell (Some (message_or e "Failed to create booking. Please try again."))
          = true) as Hmsg.
  { unfold message_or. destruct (message e) as [m|]; [|done].
    simpl. by destruct (String.eqb m "") eqn:Hm; simpl; [|rewrite Hm]. }
  unfold final_state, issued, onSubmit. simpl. rewrite Hcreate. simpl.
  unfold phase. simpl in *. rewrite Hload, Hid, Hmsg. done.
Qed.

(** C2, amended. When the fetch resolves with no field configuration, the
    session reaches Ready with the default list as its fields: full name
    (text, required, minLength 2), email (email, required) and date and
    time (datetime-local, required). When the fetch fails, the session
    reaches Failed with the message "Failed to load form. Please try again
    later." and the fields stay empty. *)
Theorem loadFormFields_absence_vs_error (w : World) :
  (forall settings, w _ getFormFields = inl settings -> settings_fields settings = None ->
     phase (final_state w loadFormFields initialState) = Ready
     /\ formFields (final_state w loadFormFields initialState) = DEFAULT_FIELDS
     /\ error (final_state w loadFormFields initialState) = None)
  /\ (forall e, w _ getFormFields = inr e ->
        phase (final_state w loadFormFields initialState) = Failed
        /\ error (final_state w loadFormFields initialState)
           = Some "Failed to load form. Please try again later."
        /\ formFields (final_state w loadFormFields initialState) = [])
  /\ describe <$> DEFAULT_FIELDS
     = [("text", true, Some 2); ("email", true, None); ("datetime-local", true, None)].
Proof.
  unfold final_state, loadFormFields. simpl. split; [|split; [|done]].
  - intros settings -> Hnone. simpl. by rewrite Hnone.
  - by intros e ->.
Qed.

(** C5, amended. While a submission is in the Submitting phase the submit
    button is disabled, so a click on it changes nothing and issues no
    call; the handler itself has no guard: when it is started in that
    phase it issues a createBooking call. *)
Theorem submitting_guard_is_the_button {E : Engine} (values : gmap string value) (σ : Session) :
  phase (state σ) = Submitting ->
  submitDisabled (state σ) = true
  /\ click values σ = σ
  /\ calls (start (onSubmit values) σ) = (calls σ ++ [Call (createBooking values)])%list.
Proof.
  intros Hphase.
  assert (isSubmitting (state σ) = true) as Hsub.
  { unfold phase in Hphase.
    destruct (isLoading (state σ)); [done|].
    destruct (truthy_cell (bookingId (state σ))); [done|].
    destruct (isSubmitting (state σ)); [done|].
    by destruct (truthy_cell (error (state σ))). }
  split; [done|]. split; [|done].
  unfold click, submitDisabled. rewrite Hsub. by destruct (view (state σ)).
Qed.

(** ** The claims on concrete inputs *)

(** C9. The claim fails on a field named [__proto__], a list with unique
    names: the assignment [schemaObject['__proto__'] = ...] adds no key, so
    the key set of the compiled validator is empty instead of holding the
    field's name, and the validator accepts the empty record although the
    field is required and its own rule rejects what is read under its
    name. *)
Theorem proto_field_gets_no_key :
  NoDup (Field.name <$> [More.proto])
  /\ dom (generateZodSchema (E:=Sample.engine) [More.proto]) = ∅
  /\ dom (generateZodSchema (E:=Sample.engine) [More.proto])
     <> list_to_set (Field.name <$> [More.proto])
  /\ accepts (E:=Sample.engine) (generateZodSchema (E:=Sample.engine) [More.proto]) ∅
  /\ fieldError (E:=Sample.engine) More.proto (get ∅ (Field.name More.proto))
     = Some "Expected string, received object".
Proof.
  split; [apply (bool_decide_unpack _); reflexivity|].
  split; [reflexivity|]. split; [|split; reflexivity].
  intros Heq. apply (f_equal (fun keys : gset string => bool_decide ("__proto__" ∈ keys))) in Heq.
  vm_compute in Heq. discriminate Heq.
Qed.

Lemma generateZodSchema_keys_witness :
  NoDup (Field.name <$> DEFAULT_FIELDS)
  /\ ("__proto__" ∉ Field.name <$> DEFAULT_FIELDS)
  /\ dom (generateZodSchema (E:=Sample.engine) DEFAULT_FIELDS)
     = {["fullName"; "email"; "date"]}
  /\ generateZodSchema (E:=Sample.engine) DEFAULT_FIELDS !! "email"
     = Some (z.ZString (z.email z.string "Email must be a valid email")).
Proof.
  assert (NoDup (Field.name <$> DEFAULT_FIELDS)) as Hnd
      by (apply (bool_decide_unpack _); reflexivity).
  assert ("__proto__" ∉ Field.name <$> DEFAULT_FIELDS) as Hproto
      by (apply (bool_decide_unpack _); reflexivity).
  destruct (@generateZodSchema_keys Sample.engine DEFAULT_FIELDS Hnd Hproto)
    as (Hdom & Hrule & _).
  split; [exact Hnd|]. split; [exact Hproto|]. split.
  - rewrite Hdom. simpl. by rewrite (right_id_L ∅ (∪)), (assoc_L (∪)).
  - apply (Hrule (Field.mk 2 "email" "Email" "email" true None None None)).
    unfold DEFAULT_FIELDS. apply list_elem_of_further, list_elem_of_here.
Defined.

(** C4. The claim fails on the empty string, which is what an input left
    blank submits: the code treats it as a present value. A required text
    field without minLength accepts it, an optional email field rejects
    it, and a required text field whose value is absent answers
    "Required", not "Nickname is required". *)
Theorem empty_string_is_a_present_value :
  zodResolver (E:=Sample.engine) (generateZodSchema (E:=Sample.engine) [Ex.nickname; Ex.contact])
              {[ "nickname" := VString ""; "contact" := VString "" ]} !! "nickname"
  = None
  /\ zodResolver (E:=Sample.engine) (generateZodSchema (E:=Sample.engine) [Ex.nickname; Ex.contact])
                 {[ "nickname" := VString ""; "contact" := VString "" ]} !! "contact"
     = Some "Contact must be a valid email"
  /\ zodResolver (E:=Sample.engine) (generateZodSchema (E:=Sample.engine) [Ex.nickname; Ex.contact])
                 ∅ !! "nickname"
     = Some "Required".
Proof. repeat split; vm_compute; reflexivity. Qed.

Lemma absent_value_required_optional_witness :
  NoDup (Field.name <$> [Ex.nickname; Ex.guests; Ex.contact])
  /\ Ex.contact ∈ [Ex.nickname; Ex.guests; Ex.contact]
  /\ Field.name Ex.contact <> "__proto__"
  /\ get (∅ : gmap string value) "contact" = VUndefined
  /\ zodResolver (E:=Sample.engine)
       (generateZodSchema (E:=Sample.engine) [Ex.nickname; Ex.guests; Ex.contact]) ∅ !! "guests"
     = Some "Guests is required"
  /\ zodResolver (E:=Sample.engine)
       (generateZodSchema (E:=Sample.engine) [Ex.nickname; Ex.guests; Ex.contact]) ∅ !! "contact"
     = None.
Proof.
  assert (NoDup (Field.name <$> [Ex.nickname; Ex.guests; Ex.contact])) as Hnd
      by (apply (bool_decide_unpack _); reflexivity).
  assert (Ex.contact ∈ [Ex.nickname; Ex.guests; Ex.contact]) as Hcontact
      by (do 2 apply list_elem_of_further; apply list_elem_of_here).
  assert (Ex.guests ∈ [Ex.nickname; Ex.guests; Ex.contact]) as Hguests
      by (apply list_elem_of_further, list_elem_of_here).
  assert (Field.name Ex.contact <> "__proto__") as Hname by discriminate.
  assert (Field.name Ex.guests <> "__proto__") as Hname' by discriminate.
  split; [exact Hnd|]. split; [exact Hcontact|]. split; [exact Hname|].
  split; [reflexivity|]. split.
  - apply (@absent_value_required_optional Sample.engine _ ∅ Ex.guests Hnd Hguests Hname');
      reflexivity.
  - apply (@absent_value_required_optional Sample.engine _ ∅ Ex.contact Hnd Hcontact Hname);
      reflexivity.
Defined.

(** C6, as stated, fails on the type [datetime]: it has no case in
    [generateZodSchema], the field is compiled as free text and accepts a
    string that is not a date. *)
Lemma datetime_type_is_free_text :
  Field.type Ex.when = "datetime"
  /\ Date_isNaN (Engine:=Sample.engine) "hello" = true
  /\ fieldError (E:=Sample.engine) Ex.when (VString "hello") = None.
Proof. repeat split. Qed.

Lemma date_rule_witness :
  (Field.type Ex.day = "date" \/ Field.type Ex.day = "datetime-local")
  /\ fieldError (E:=Sample.engine) Ex.day (VString "2024-05-01") = None
  /\ fieldError (E:=Sample.engine) Ex.day (VString "tomorrow") = Some "Day must be a valid date".
Proof.
  assert (Field.type Ex.day = "date" \/ Field.type Ex.day = "datetime-local") as Htype
      by (left; reflexivity).
  split; [exact Htype|]. split.
  - apply (@date_rule Sample.engine Ex.day "2024-05-01" Htype). reflexivity.
  - apply (@date_rule Sample.engine Ex.day "tomorrow" Htype). reflexivity.
Defined.

Lemma number_rule_witness :
  Field.type Ex.guests = "number"
  /\ fieldError (E:=Sample.engine) Ex.guests (VString "seven") = Some "Guests must be a number"
  /\ fieldError (E:=Sample.engine) Ex.guests (VNumber 3) = Some "Guests must be at least 5"
  /\ fieldError (E:=Sample.engine) Ex.guests (VNumber 7) = None
  /\ fieldError (E:=Sample.engine) Ex.guests (VNumber 12) = Some "Guests must be at most 10".
Proof.
  destruct (@number_rule Sample.engine Ex.guests eq_refl) as (Htype & _ & Hrange).
  split; [reflexivity|]. split.
  - apply (Htype (VString "seven")); discriminate.
  - apply (Hrange eq_refl eq_refl).
Defined.

Lemma tel_rule_default_length_witness :
  Field.type Ex.phone = "tel" /\ Field.minLength Ex.phone = None
  /\ fieldError (E:=Sample.engine) Ex.phone (VString "12345")
     = Some "Phone must be at least 10 characters"
  /\ fieldError (E:=Sample.engine) Ex.phone (VString "0123456789") = None.
Proof.
  split; [reflexivity|]. split; [reflexivity|]. split.
  - apply (@tel_rule_default_length Sample.engine Ex.phone "12345" eq_refl eq_refl).
    reflexivity.
  - apply (@tel_rule_default_length Sample.engine Ex.phone "0123456789" eq_refl eq_refl).
    reflexivity.
Defined.

Lemma minLength_zero_as_absent_witness :
  Field.type Ex.phone = "tel" /\ (Field.type Ex.nickname ∉ known_types)
  /\ fieldError (E:=Sample.engine) (with_minLength (Some 0) Ex.phone) (VString "12345")
     = Some "Phone must be at least 10 characters"
  /\ fieldSchema (E:=Sample.engine) (with_minLength (Some 0) Ex.nickname) = z.ZString z.string.
Proof.
  assert (Field.type Ex.nickname ∉ known_types) as Hunknown.
  { apply (bool_decide_unpack _). reflexivity. }
  split; [reflexivity|]. split; [exact Hunknown|]. split.
  - unfold fieldError.
    rewrite (proj1 (@minLength_zero_as_absent Sample.engine Ex.phone)). reflexivity.
  - apply (@minLength_zero_as_absent Sample.engine Ex.nickname). exact Hunknown.
Defined.

Lemma notifier_failure_keeps_confirmation_witness :
  view Ex.ready_state = FormView
  /\ Ex.store_empty _ (createBooking Ex.booking) = inl "B123"
  /\ "B123" <> ""
  /\ Ex.booking !! "email" = Some (VString "ann@example.org")
  /\ "ann@example.org" <> ""
  /\ Ex.store_empty _ (sendBookingEmail Ex.booking "B123")
     = inr (ErrorObject (mkError (Some "mailbox unavailable")))
  /\ phase (final_state Ex.store_empty (onSubmit Ex.booking) Ex.ready_state) = Confirmed
  /\ bookingId (final_state Ex.store_empty (onSubmit Ex.booking) Ex.ready_state) = Some "B123"
  /\ notificationStatus (final_state Ex.store_empty (onSubmit Ex.booking) Ex.ready_state)
     = DeliveryFailed.
Proof.
  assert ("B123" <> "") as HX by discriminate.
  assert ("ann@example.org" <> "") as Hne by discriminate.
  assert (Ex.booking !! "email" = Some (VString "ann@example.org")) as Hemail
      by (vm_compute; reflexivity).
  destruct (notifier_failure_keeps_confirmation
              Ex.store_empty Ex.ready_state Ex.booking "B123" "ann@example.org"
              (ErrorObject (mkError (Some "mailbox unavailable")))
              eq_refl eq_refl HX Hemail Hne eq_refl) as (Hphase & Hid & Hstatus & _).
  split; [reflexivity|]. split; [reflexivity|]. split; [exact HX|].
  split; [exact Hemail|]. split; [exact Hne|]. split; [reflexivity|].
  exact (conj Hphase (conj Hid Hstatus)).
Defined.

Lemma creation_failure_no_notification_witness :
  view Ex.ready_state = FormView
  /\ Ex.store_down _ (createBooking Ex.booking)
     = inr (ErrorObject (mkError (Some "permission-denied")))
  /\ phase (final_state Ex.store_down (onSubmit Ex.booking) Ex.ready_state) = Failed
  /\ error (final_state Ex.store_down (onSubmit Ex.booking) Ex.ready_state)
     = Some "permission-denied"
  /\ filter is_sendBookingEmail (issued Ex.store_down (onSubmit Ex.booking) Ex.ready_state) = [].
Proof.
  destruct (creation_failure_no_notification
              Ex.store_down Ex.ready_state Ex.booking (mkError (Some "permission-denied"))
              eq_refl eq_refl) as (Hphase & Herror & _ & _ & Hnone).
  split; [reflexivity|]. split; [reflexivity|].
  exact (conj Hphase (conj Herror Hnone)).
Defined.

(** C2, as stated, fails on the type of the third default field: the code
    gives it the type [datetime-local], the specification words it as
    [datetime]. *)
Lemma default_fields_differ_from_spec :
  Ex.store_empty _ getFormFields = inl None
  /\ describe <$> formFields (final_state Ex.store_empty loadFormFields initialState)
     <> spec_default_fields.
Proof. split; [reflexivity | discriminate]. Qed.

Lemma loadFormFields_absence_vs_error_witness :
  Ex.store_empty _ getFormFields = inl None
  /\ Ex.store_down _ getFormFields = inr (ErrorObject (mkError (Some "unavailable")))
  /\ phase (final_state Ex.store_empty loadFormFields initialState) = Ready
  /\ formFields (final_state Ex.store_empty loadFormFields initialState) = DEFAULT_FIELDS
  /\ phase (final_state Ex.store_down loadFormFields initialState) = Failed
  /\ formFields (final_state Ex.store_down loadFormFields initialState) = [].
Proof.
  destruct (loadFormFields_absence_vs_error Ex.store_empty) as (Habsent & _ & _).
  destruct (loadFormFields_absence_vs_error Ex.store_down) as (_ & Hdown & _).
  destruct (Habsent None eq_refl eq_refl) as (Hready & Hfields & _).
  destruct (Hdown (ErrorObject (mkError (Some "unavailable"))) eq_refl)
    as (Hfailed & _ & Hempty).
  split; [reflexivity|]. split; [reflexivity|].
  exact (conj Hready (conj Hfields (conj Hfailed Hempty))).
Defined.

(** C5, as stated, fails: a second submit event that reaches
    [handleSubmit(onSubmit)] while the first submission is in the
    Submitting phase is not ignored, and createBooking is called twice. *)
Lemma repeated_submit_creates_twice :
  phase (state (handleSubmit (E:=Sample.engine) Ex.booking Ex.ready)) = Submitting
  /\ length (filter is_createBooking
               (calls (handleSubmit (E:=Sample.engine) Ex.booking Ex.ready))) = 1%nat
  /\ length (filter is_createBooking
               (calls (handleSubmit (E:=Sample.engine) Ex.booking
                         (handleSubmit (E:=Sample.engine) Ex.booking Ex.ready)))) = 2%nat.
Proof. repeat split; vm_compute; reflexivity. Qed.

Lemma submitting_guard_is_the_button_witness :
  phase (state (handleSubmit (E:=Sample.engine) Ex.booking Ex.ready)) = Submitting
  /\ click (E:=Sample.engine) Ex.booking (handleSubmit (E:=Sample.engine) Ex.booking Ex.ready)
     = handleSubmit (E:=Sample.engine) Ex.booking Ex.ready.
Proof.
  assert (phase (state (handleSubmit (E:=Sample.engine) Ex.booking Ex.ready)) = Submitting)
    as Hphase by (vm_compute; reflexivity).
  split; [exact Hphase|].
  apply (@submitting_guard_is_the_button Sample.engine Ex.booking _ Hphase).
Defined.

(** ** More on the schema compiler *)

Section CompilerMore.
Context {E : Engine}.

(** X1. When several fields share a name other than [__proto__], the rule
    kept under that name is the one of the last of them; the name
    [__proto__] never holds a rule. *)
Theorem generateZodSchema_last_wins
        (before after : list FieldDefinition) (field : FieldDefinition) :
  Field.name field <> "__proto__" ->
  Field.name field ∉ Field.name <$> after ->
  generateZodSchema (before ++ field :: after) !! Field.name field
  = Some (schemaEntry field)
  /\ generateZodSchema (before ++ field :: after) !! "__proto__" = None.
Proof.
  intros Hname Hfresh. split; [|apply generateZodSchema_proto].
  induction after as [|last after IH] using rev_ind.
  - rewrite generateZodSchema_snoc, assign_key by done. apply lookup_insert_eq.
  - rewrite fmap_app in Hfresh. apply not_elem_of_app in Hfresh as [Hafter Hlast].
    replace (before ++ field :: after ++ [last])%list
      with ((before ++ field :: after) ++ [last])%list by (by rewrite <- app_assoc).
    rewrite generateZodSchema_snoc. unfold assign.
    destruct (String.eqb (Field.name last) "__proto__"); [by apply IH|].
    rewrite lookup_insert_ne; [by apply IH|].
    intros Heq. apply Hlast. rewrite <- Heq. apply list_elem_of_here.
Qed.

(** Every key of the schema is the name of a field, with that field's rule
    or the rule of a later field of the same name. *)
Lemma generateZodSchema_lookup_Some (fields : list FieldDefinition) (key : string)
      (s : z.ZodType) :
  generateZodSchema fields !! key = Some s ->
  exists field, field ∈ fields /\ Field.name field = key /\ s = schemaEntry field.
Proof.
  induction fields as [|last fields IH] using rev_ind.
  - unfold generateZodSchema. simpl. by rewrite lookup_empty.
  - rewrite generateZodSchema_snoc. unfold assign.
    assert (generateZodSchema fields !! key = Some s ->
            exists field, field ∈ (fields ++ [last])%list /\ Field.name field = key
                          /\ s = schemaEntry field) as Hold.
    { intros Hs. destruct (IH Hs) as (field & Hin & Hkey & Hrule).
      exists field. split; [|done]. apply elem_of_app. by left. }
    destruct (String.eqb (Field.name last) "__proto__"); [done|].
    destruct (decide (Field.name last = key)) as [Heq | Hne].
    + rewrite Heq, lookup_insert_eq. intros [= <-].
      exists last. split; [|done]. apply elem_of_app. right. apply list_elem_of_here.
    + by rewrite lookup_insert_ne.
Qed.

(** X2. On a field list with unique names, a record is accepted exactly
    when the rule of every field not named [__proto__] accepts the value
    read under the field's name; a field named [__proto__] has no rule in
    the validator and is not checked. *)
Theorem accepts_iff_every_field (fields : list FieldDefinition) (values : gmap string value) :
  NoDup (Field.name <$> fields) ->
  accepts (generateZodSchema fields) values
  <-> forall field, field ∈ fields -> Field.name field <> "__proto__" ->
                    fieldError field (get values (Field.name field)) = None.
Proof.
  intros Hnd. unfold accepts. split.
  - intros Hempty field Hin Hname.
    rewrite <- (zodResolver_field _ _ _ Hnd Hin Hname), Hempty. apply lookup_empty.
  - intros Hall. apply map_empty. intros key. unfold zodResolver.
    rewrite map_lookup_imap.
    destruct (generateZodSchema fields !! key) as [s|] eqn:Hs; [|done]. simpl.
    destruct (generateZodSchema_lookup_Some _ _ _ Hs) as (field & Hin & <- & ->).
    apply (Hall field Hin). intros Hname.
    by rewrite Hname, generateZodSchema_proto in Hs.
Qed.

(** X3. Validation reads the record under the fields' names only: errors are
    reported under names of fields, and two records that agree under every
    field name get the same errors. *)
Theorem zodResolver_reads_field_names (fields : list FieldDefinition)
        (values values' : gmap string value) :
  dom (zodResolver (generateZodSchema fields) values) ⊆ list_to_set (Field.name <$> fields)
  /\ ((forall field, field ∈ fields ->
         get values (Field.name field) = get values' (Field.name field)) ->
      zodResolver (generateZodSchema fields) values
      = zodResolver (generateZodSchema fields) values').
Proof.
  split.
  - etrans; [apply dom_imap_subseteq|].
    rewrite generateZodSchema_dom. intros name.
    rewrite !elem_of_list_to_set, list_elem_of_filter. by intros [_ ?].
  - intros Hagree. apply map_eq. intros key. unfold zodResolver.
    rewrite !map_lookup_imap.
    destruct (generateZodSchema fields !! key) as [s|] eqn:Hs; [|done]. simpl.
    destruct (generateZodSchema_lookup_Some _ _ _ Hs) as (field & Hin & <- & ->).
    by rewrite (Hagree field Hin).
Qed.

(** X4. An email field accepts a string exactly when zod's email pattern
    matches it, and answers any other string with "{label} must be a valid
    email". *)
Theorem email_rule (field : FieldDefinition) (s : string) :
  Field.type field = "email" ->
  (fieldError field (VString s) = None <-> emailRegex_test s = true)
  /\ (emailRegex_test s = false ->
        fieldError field (VString s) = Some (Field.label field +:+ " must be a valid email")).
Proof.
  intros Htype. unfold fieldError, schemaEntry, fieldSchema. rewrite Htype. simpl.
  destruct (Field.required field); simpl; destruct (emailRegex_test s); simpl;
    split; try split; done.
Qed.

(** X5. A field of a type without a case of its own is compiled exactly like a
    text field. *)
Theorem unknown_type_as_text (field : FieldDefinition) :
  Field.type field ∉ known_types ->
  schemaEntry field = schemaEntry (with_type "text" field).
Proof.
  intros Htype. apply unknown_type_eqb in Htype as (He & Hn & Hd & Hl & Ht).
  unfold schemaEntry, fieldSchema. simpl. by rewrite He, Hn, Hd, Hl, Ht.
Qed.

(** X6. A text field (or a field of a type without a case) with a non-zero
    minLength accepts a string exactly when it has at least that many
    characters, and answers a shorter one with "{label} must be at least
    {minLength} characters". *)
Theorem text_rule_min_length (field : FieldDefinition) (n : Z) (s : string) :
  Field.type field ∉ known_types -> Field.minLength field = Some n -> n <> 0 ->
  (fieldError field (VString s) = None <-> n <= Z.of_nat (String.length s))
  /\ (Z.of_nat (String.length s) < n ->
        fieldError field (VString s)
        = Some (Field.label field +:+ " must be at least " +:+ pretty n +:+ " characters")).
Proof.
  intros Htype Hlen Hn. apply unknown_type_eqb in Htype as (He & Hno & Hd & Hl & Ht).
  assert (truthy (VNumber n) = true) as Htruthy.
  { simpl. by apply negb_true_iff, Z.eqb_neq. }
  unfold fieldError, schemaEntry, fieldSchema. rewrite He, Hno, Hd, Hl, Ht, Hlen, Htruthy.
  simpl.
  destruct (Field.required field); simpl;
    destruct (Z.ltb_spec (Z.of_nat (String.length s)) n); simpl;
    (split; [split|]); intros; try done; lia.
Qed.

(** X7. A text field (or a field of a type without a case) with no minLength,
    or minLength 0, accepts every string, the empty string too, also when
    it is required. *)
Theorem text_rule_free (field : FieldDefinition) (s : string) :
  Field.type field ∉ known_types ->
  Field.minLength field = None \/ Field.minLength field = Some 0 ->
  fieldError field (VString s) = None.
Proof.
  intros Htype Hlen. apply unknown_type_eqb in Htype as (He & Hno & Hd & Hl & Ht).
  unfold fieldError, schemaEntry, fieldSchema. rewrite He, Hno, Hd, Hl, Ht.
  by destruct Hlen as [-> | ->], (Field.required field).
Qed.

(** X8. A tel field with a non-zero minLength accepts a string exactly when it
    has at least that many characters: the default 10 no longer applies. *)
Theorem tel_rule_min_length (field : FieldDefinition) (n : Z) (s : string) :
  Field.type field = "tel" -> Field.minLength field = Some n -> n <> 0 ->
  (fieldError field (VString s) = None <-> n <= Z.of_nat (String.length s))
  /\ (Z.of_nat (String.length s) < n ->
        fieldError field (VString s)
        = Some (Field.label field +:+ " must be at least " +:+ pretty n +:+ " characters")).
Proof.
  intros Htype Hlen Hn.
  assert (or_default (Some n) 10 = n) as Hdefault.
  { unfold or_default. simpl. by destruct (Z.eqb_spec n 0). }
  unfold fieldError, schemaEntry, fieldSchema. rewrite Htype, Hlen, Hdefault. simpl.
  destruct (Field.required field); simpl;
    destruct (Z.ltb_spec (Z.of_nat (String.length s)) n); simpl;
    (split; [split|]); intros; try done; lia.
Qed.

(** X9. A number field accepts a number exactly when it is at least the
    configured min and at most the configured max, each bound counting only
    when it is configured. *)
Theorem number_rule_range (field : FieldDefinition) (x : Z) :
  Field.type field = "number" ->
  fieldError field (VNumber x) = None
  <-> (forall lo, Field.min field = Some lo -> lo <= x)
      /\ (forall hi, Field.max field = Some hi -> x <= hi).
Proof.
  intros Htype. unfold fieldError, schemaEntry, fieldSchema. rewrite Htype. simpl.
  destruct (Field.required field), (Field.min field) as [lo|], (Field.max field) as [hi|];
    simpl;
    repeat match goal with
           | |- context [?a <? ?b] => destruct (Z.ltb_spec a b); simpl
           end;
    (split; [intros Hnone; try done; split; intros ? [= <-]; lia
            | intros [Hlo Hhi]; try done;
              try (specialize (Hlo _ eq_refl)); try (specialize (Hhi _ eq_refl)); lia]).
Qed.

(** X10. A number field whose min exceeds its max is compiled as configured and
    rejects every number: below min with the min message, otherwise with
    the max message. *)
Theorem number_rule_inverted_bounds (field : FieldDefinition) (lo hi x : Z) :
  Field.type field = "number" ->
  Field.min field = Some lo -> Field.max field = Some hi -> hi < lo ->
  fieldError field (VNumber x)
  = Some (if x <? lo
          then Field.label field +:+ " must be at least " +:+ pretty lo
          else Field.label field +:+ " must be at most " +:+ pretty hi).
Proof.
  intros Htype Hlo Hhi Hinv.
  unfold fieldError, schemaEntry, fieldSchema. rewrite Htype, Hlo, Hhi. simpl.
  destruct (Field.required field); simpl;
    destruct (Z.ltb_spec x lo); simpl; destruct (Z.ltb_spec hi x); simpl; try done; lia.
Qed.

(** X11. Making a field optional changes its rule on the absent value only:
    every value that is present, [null] and the empty string included, is
    judged as if the field were required. *)
Theorem optional_only_skips_undefined (field : FieldDefinition) (v : value) :
  v <> VUndefined ->
  fieldError (with_required false field) v = fieldError (with_required true field) v.
Proof.
  intros Hdef. unfold fieldError, schemaEntry. simpl.
  replace (fieldSchema (with_required false field))
    with (fieldSchema (with_required true field)) by done.
  by destruct v.
Qed.

(** X12. The default form accepts a record exactly when its full name is a
    string of at least 2 characters, its email a string matching the email
    pattern and its date a string that [new Date] parses. *)
Theorem default_form_accepts (values : gmap string value) :
  accepts (generateZodSchema DEFAULT_FIELDS) values
  <-> exists fullName email date,
        get values "fullName" = VString fullName /\ (2 <= String.length fullName)%nat
        /\ get values "email" = VString email /\ emailRegex_test email = true
        /\ get values "date" = VString date /\ Date_isNaN date = false.
Proof.
  assert (NoDup (Field.name <$> DEFAULT_FIELDS)) as Hnd
      by (apply (bool_decide_unpack _); reflexivity).
  rewrite (accepts_iff_every_field _ _ Hnd). unfold DEFAULT_FIELDS. split.
  - intros Hall.
    pose proof (Hall _ (list_elem_of_here _ _) ltac:(by simpl)) as Hname.
    pose proof (Hall _ (list_elem_of_further _ _ _ (list_elem_of_here _ _))
                  ltac:(by simpl)) as Hemail.
    pose proof (Hall _ (list_elem_of_further _ _ _
                          (list_elem_of_further _ _ _ (list_elem_of_here _ _)))
                  ltac:(by simpl)) as Hdate.
    clear Hall. unfold fieldError in *. simpl in *.
    destruct (get values "fullName") as [| | | | |fullName| |]; try done.
    destruct (get values "email") as [| | | | |email| |]; try done.
    destruct (get values "date") as [| | | | |date| |]; try done.
    simpl in *. exists fullName, email, date.
    destruct (Z.ltb_spec (Z.of_nat (String.length fullName)) 2); [done|].
    destruct (emailRegex_test email); [|done].
    destruct (Date_isNaN date); [done|].
    repeat split; try done. lia.
  - intros (fullName & email & date & Hn & Hlen & He & Hmatch & Hd & Hparse) field Hin _.
    repeat (apply elem_of_cons in Hin as [-> | Hin]); [| | |by apply elem_of_nil in Hin];
      unfold fieldError; simpl.
    + rewrite Hn. simpl.
      by destruct (Z.ltb_spec (Z.of_nat (String.length fullName)) 2); [lia|].
    + rewrite He. simpl. by rewrite Hmatch.
    + rewrite Hd. simpl. by rewrite Hparse.
Qed.

End CompilerMore.

(** ** More on the handlers *)

(** X13. Whatever the collaborators answer, [onSubmit] ends with the
    submitting flag down and leaves the field list and the loading flag as
    they were. Its promise is fulfilled, except when createBooking rejects
    with [null] or [undefined]: reading [error.message] then throws in the
    catch block, the promise is rejected with that TypeError and no error
    message is set. *)
Theorem onSubmit_finally_resets_submitting
        (w : World) (data : gmap string value) (s : State) :
  isSubmitting (final_state w (onSubmit data) s) = false
  /\ formFields (final_state w (onSubmit data) s) = formFields s
  /\ isLoading (final_state w (onSubmit data) s) = isLoading s
  /\ match w _ (createBooking data) with
     | inr RejNull | inr RejUndefined =>
         (exists err, outcome w (onSubmit data) s = inr (ErrorObject err))
         /\ error (final_state w (onSubmit data) s) = None
         /\ bookingId (final_state w (onSubmit data) s) = bookingId s
     | _ => outcome w (onSubmit data) s = inl tt
     end.
Proof.
  unfold outcome, final_state, onSubmit. simpl.
  destruct (w _ (createBooking data)) as [id | [e | |]]; simpl.
  - destruct (truthy (get data "email")); simpl; [|done].
    by destruct (w _ (sendBookingEmail data id)) as [[] | e'].
  - done.
  - repeat split; eauto.
  - repeat split; eauto.
Qed.

(** X14. Every run of [onSubmit] calls createBooking exactly once and first; it
    calls sendBookingEmail at most once, and does so exactly when
    createBooking succeeded and [data.email] is truthy. *)
Theorem onSubmit_call_discipline (w : World) (data : gmap string value) (s : State) :
  head (issued w (onSubmit data) s) = Some (Call (createBooking data))
  /\ length (filter is_createBooking (issued w (onSubmit data) s)) = 1%nat
  /\ (length (filter is_sendBookingEmail (issued w (onSubmit data) s)) <= 1)%nat
  /\ (filter is_sendBookingEmail (issued w (onSubmit data) s) <> []
      <-> (exists id, w _ (createBooking data) = inl id)
          /\ truthy (get data "email") = true).
Proof.
  unfold issued, onSubmit. simpl.
  destruct (w _ (createBooking data)) as [id | e]; simpl.
  - destruct (truthy (get data "email")); simpl.
    + destruct (w _ (sendBookingEmail data id)) as [[] | e']; simpl;
        (split; [done|]; split; [done|]; split; [lia|]; split; [by eauto | done]).
    + split; [done|]. split; [done|]. split; [lia|]. split; [done | by intros [_ ?]].
  - destruct e; simpl;
      (split; [done|]; split; [done|]; split; [lia|];
       split; [done | by intros [[id [=]] _]]).
Qed.

(** X15. A booking whose record has no truthy [email] is confirmed without any
    call to the notifier: no email status is set (Skipped) and the QR code
    carries the identifier. *)
Theorem booking_without_email_skips_notifier
        (w : World) (s : State) (data : gmap string value) (X : string) :
  view s = FormView ->
  w _ (createBooking data) = inl X -> X <> "" ->
  truthy (get data "email") = false ->
  phase (final_state w (onSubmit data) s) = Confirmed
  /\ notificationStatus (final_state w (onSubmit data) s) = Skipped
  /\ emailStatus (final_state w (onSubmit data) s) = None
  /\ qrValue (final_state w (onSubmit data) s) = Some X
  /\ issued w (onSubmit data) s = [Call (createBooking data)].
Proof.
  intros Hview Hcreate HX Hemail.
  assert (isLoading s = false) as Hload.
  { unfold view in Hview. by destruct (isLoading s). }
  assert (String.eqb X "" = false) as HtX by (by apply String.eqb_neq).
  unfold final_state, issued, onSubmit. simpl.
  rewrite Hcreate. simpl. rewrite Hemail. simpl.
  unfold notificationStatus, qrValue, view, phase. simpl. rewrite Hload, HtX. done.
Qed.

(** X16. A booking with an email whose notification succeeds is confirmed with
    the status "Confirmation email sent!" (Sent); the notifier is called
    once, after createBooking, with the record and the identifier. *)
Theorem notifier_success_is_reported
        (w : World) (s : State) (data : gmap string value) (X : string) :
  view s = FormView ->
  w _ (createBooking data) = inl X -> X <> "" ->
  truthy (get data "email") = true ->
  w _ (sendBookingEmail data X) = inl tt ->
  phase (final_state w (onSubmit data) s) = Confirmed
  /\ notificationStatus (final_state w (onSubmit data) s) = Sent
  /\ emailStatus (final_state w (onSubmit data) s) = Some "Confirmation email sent!"
  /\ qrValue (final_state w (onSubmit data) s) = Some X
  /\ error (final_state w (onSubmit data) s) = None
  /\ issued w (onSubmit data) s
     = [Call (createBooking data); Call (sendBookingEmail data X)].
Proof.
  intros Hview Hcreate HX Hemail Hsend.
  assert (isLoading s = false) as Hload.
  { unfold view in Hview. by destruct (isLoading s). }
  assert (String.eqb X "" = false) as HtX by (by apply String.eqb_neq).
  unfold final_state, issued, onSubmit. simpl.
  rewrite Hcreate. simpl. rewrite Hemail. simpl. rewrite Hsend. simpl.
  unfold notificationStatus, qrValue, view, phase. simpl. rewrite Hload, HtX. done.
Qed.

(** X17. After a createBooking that rejects with an error the form stays on
    screen with its button enabled and the error in the banner; no QR code
    and no email status are shown. *)
Theorem creation_failure_keeps_form
        (w : World) (s : State) (data : gmap string value) (e : JsError) :
  view s = FormView ->
  w _ (createBooking data) = inr (ErrorObject e) ->
  view (final_state w (onSubmit data) s) = FormView
  /\ submitDisabled (final_state w (onSubmit data) s) = false
  /\ errorBanner (final_state w (onSubmit data) s)
     = Some (message_or e "Failed to create booking. Please try again.")
  /\ emailStatus (final_state w (onSubmit data) s) = None
  /\ qrValue (final_state w (onSubmit data) s) = None.
Proof.
  intros Hview Hcreate.
  assert (isLoading s = false /\ truthy_cell (bookingId s) = false) as [Hload Hid].
  { unfold view in Hview. destruct (isLoading s); [done|].
    by destruct (truthy_cell (bookingId s)). }
  assert (String.eqb (message_or e "Failed to create booking. Please try again.") ""
          = false) as Hmsg.
  { unfold message_or. destruct (message e) as [m|]; [|done].
    simpl. by destruct (String.eqb m "") eqn:Hm. }
  unfold final_state, onSubmit. simpl. rewrite Hcreate. simpl.
  unfold qrValue, view, errorBanner, submitDisabled. simpl.
  rewrite Hload, Hid. simpl. rewrite Hmsg. done.
Qed.

(** X18. A submission that fails can be followed by one that succeeds: the
    second one ends Confirmed with its identifier and the error of the
    first one is gone from the banner. *)
Theorem retry_after_failure_confirms
        (w1 w2 : World) (s : State) (data1 data2 : gmap string value)
        (e : rejection) (X : string) :
  view s = FormView ->
  w1 _ (createBooking data1) = inr e ->
  w2 _ (createBooking data2) = inl X -> X <> "" ->
  phase (final_state w2 (onSubmit data2) (final_state w1 (onSubmit data1) s)) = Confirmed
  /\ bookingId (final_state w2 (onSubmit data2) (final_state w1 (onSubmit data1) s))
     = Some X
  /\ errorBanner (final_state w2 (onSubmit data2) (final_state w1 (onSubmit data1) s))
     = None.
Proof.
  intros Hview Hfail Hcreate HX.
  assert (isLoading s = false) as Hload.
  { unfold view in Hview. by destruct (isLoading s). }
  assert (String.eqb X "" = false) as HtX by (by apply String.eqb_neq).
  unfold final_state, onSubmit. simpl. rewrite Hfail.
  destruct e as [e | |]; simpl; rewrite Hcreate; simpl;
    (destruct (truthy (get data2 "email")); simpl;
     [destruct (w2 _ (sendBookingEmail data2 X)) as [[] | e']; simpl|];
     unfold phase, errorBanner; simpl; rewrite Hload, ?HtX; done).
Qed.

(** X19. When the fetch resolves with a field list, the session reaches Ready
    with exactly that list, also when the list is empty: the default list
    is used only when there is no list. *)
Theorem loadFormFields_configured
        (w : World) (settings : option Settings) (l : list FieldDefinition) :
  w _ getFormFields = inl settings -> settings_fields settings = Some l ->
  phase (final_state w loadFormFields initialState) = Ready
  /\ formFields (final_state w loadFormFields initialState) = l
  /\ error (final_state w loadFormFields initialState) = None.
Proof.
  intros Hfetch Hfields. unfold final_state, loadFormFields. simpl.
  rewrite Hfetch. simpl. by rewrite Hfields.
Qed.

(** X20. Whatever the store answers, [loadFormFields] calls getFormFields once
    and nothing else, its promise is fulfilled, and it ends with the
    spinner gone and the form on screen. *)
Theorem loadFormFields_always_ends_loading (w : World) :
  outcome w loadFormFields initialState = inl tt
  /\ issued w loadFormFields initialState = [Call getFormFields]
  /\ isLoading (final_state w loadFormFields initialState) = false
  /\ view (final_state w loadFormFields initialState) = FormView
  /\ submitDisabled (final_state w loadFormFields initialState) = false.
Proof.
  unfold outcome, issued, final_state, loadFormFields. simpl.
  destruct (w _ getFormFields) as [settings | e]; simpl; [|done].
  by destruct (settings_fields settings).
Qed.

Section SessionMore.
Context {E : Engine}.

Lemma submitted_lookup (fields : list FieldDefinition) (values : gmap string value)
      (key : string) :
  key ∉ Field.name <$> fields -> submitted fields values !! key = None.
Proof.
  intros Hkey. unfold submitted. apply map_lookup_filter_None. right.
  intros v _ [s Hs]. simpl in Hs.
  destruct (generateZodSchema_lookup_Some _ _ _ Hs) as (field & Hin & <- & _).
  apply Hkey. by apply list_elem_of_fmap_2.
Qed.

(** X21. A click whose values the validator rejects, or that comes while the
    form is not on screen or the button is disabled, reaches no
    collaborator: state, calls and pending handlers are unchanged. *)
Theorem blocked_click_reaches_no_collaborator (values : gmap string value) (σ : Session) :
  ~ accepts (generateZodSchema (formFields (state σ))) values
  \/ view (state σ) <> FormView \/ submitDisabled (state σ) = true ->
  state (click values σ) = state σ
  /\ calls (click values σ) = calls σ
  /\ pending (click values σ) = pending σ.
Proof.
  intros Hblocked. unfold click.
  destruct (view (state σ)) eqn:Hview; try done.
  destruct (submitDisabled (state σ)) eqn:Hdisabled; [done|].
  destruct Hblocked as [Hrej | [Hview' | Hd]]; try done.
  unfold handleSubmit. unfold accepts in Hrej. by destruct (decide _).
Qed.

(** X22. A click on the enabled button of the form, with values the validator
    accepts, clears the errors and starts one submission: createBooking is
    called with the values under the fields' names and the session is
    Submitting. *)
Theorem accepted_click_starts_submission (values : gmap string value) (σ : Session) :
  view (state σ) = FormView -> submitDisabled (state σ) = false ->
  accepts (generateZodSchema (formFields (state σ))) values ->
  phase (state (click values σ)) = Submitting
  /\ errors (click values σ) = ∅
  /\ error (state (click values σ)) = None
  /\ calls (click values σ)
     = (calls σ ++ [Call (createBooking (submitted (formFields (state σ)) values))])%list
  /\ length (pending (click values σ)) = S (length (pending σ)).
Proof.
  intros Hview Hdisabled Haccepts. unfold click. rewrite Hview, Hdisabled.
  unfold handleSubmit. unfold accepts in Haccepts.
  destruct (decide _) as [_ | Hne]; [|done].
  assert (isLoading (state σ) = false /\ truthy_cell (bookingId (state σ)) = false)
    as [Hload Hid].
  { unfold view in Hview. destruct (isLoading (state σ)); [done|].
    by destruct (truthy_cell (bookingId (state σ))). }
  unfold onSubmit, phase. simpl. rewrite Hload, Hid, length_app. simpl.
  repeat split; try done. lia.
Qed.

(** X23. After a failed fetch the form is still on screen, with no field and
    the error in the banner; a click on its button passes the (empty)
    validator and calls createBooking with an empty record, whatever the
    values. *)
Theorem failed_load_leaves_empty_form (w : World) (e : rejection) (values : gmap string value) :
  w _ getFormFields = inr e ->
  view (state (settle w 0 mount)) = FormView
  /\ formFields (state (settle w 0 mount)) = []
  /\ errorBanner (state (settle w 0 mount))
     = Some "Failed to load form. Please try again later."
  /\ calls (click values (settle w 0 mount))
     = [Call getFormFields; Call (createBooking ∅)].
Proof.
  intros Hfetch. unfold settle, mount, loadFormFields. simpl. rewrite Hfetch. simpl.
  repeat split.
  unfold click, handleSubmit. simpl.
  assert (zodResolver (generateZodSchema []) values = ∅) as ->
      by apply map_imap_empty.
  destruct (decide _) as [_ | Hne]; [|done]. simpl.
  replace (filter (fun kv : string * value => is_Some (generateZodSchema [] !! kv.1)) values)
    with (∅ : gmap string value); [done|].
  symmetry. apply map_empty. intros key. apply map_lookup_filter_None. right.
  intros v _ [s Hs]. simpl in Hs. unfold generateZodSchema in Hs. simpl in Hs.
  by rewrite lookup_empty in Hs.
Qed.

(** X24. The notifier is called only for forms that have a field named
    "email": for any other form, the record handed to [onSubmit] has no
    [email] and createBooking is the only call of the submission. *)
Theorem notifier_needs_field_named_email
        (fields : list FieldDefinition) (values : gmap string value) (w : World) (s : State) :
  "email" ∉ Field.name <$> fields ->
  issued w (onSubmit (submitted fields values)) s
  = [Call (createBooking (submitted fields values))].
Proof.
  intros Hno.
  assert (truthy (get (submitted fields values) "email") = false) as Hemail.
  { unfold get. by rewrite (submitted_lookup _ _ _ Hno). }
  unfold issued, onSubmit. simpl.
  destruct (w _ (createBooking (submitted fields values))) as [id | e]; simpl;
    [|by destruct e].
  by rewrite Hemail.
Qed.

End SessionMore.

(** ** The further properties on concrete inputs *)

Lemma generateZodSchema_last_wins_witness :
  Field.name More.seats_number <> "__proto__"
  /\ (Field.name More.seats_number ∉ Field.name <$> [Ex.phone])
  /\ generateZodSchema (E:=Sample.engine) [More.seats_text; More.seats_number; Ex.phone]
       !! "seats"
     = Some (schemaEntry (E:=Sample.engine) More.seats_number).
Proof.
  assert (Field.name More.seats_number <> "__proto__") as Hname by discriminate.
  assert (Field.name More.seats_number ∉ Field.name <$> [Ex.phone]) as Hfresh
      by (apply (bool_decide_unpack _); reflexivity).
  split; [exact Hname|]. split; [exact Hfresh|].
  exact (proj1 (@generateZodSchema_last_wins Sample.engine [More.seats_text] [Ex.phone]
                  More.seats_number Hname Hfresh)).
Defined.

Lemma accepts_iff_every_field_witness :
  NoDup (Field.name <$> [More.proto; Ex.guests])
  /\ accepts (E:=Sample.engine) (generateZodSchema (E:=Sample.engine) [More.proto; Ex.guests])
             {[ "guests" := VNumber 7 ]}.
Proof.
  assert (NoDup (Field.name <$> [More.proto; Ex.guests])) as Hnd
      by (apply (bool_decide_unpack _); reflexivity).
  split; [exact Hnd|].
  apply (@accepts_iff_every_field Sample.engine [More.proto; Ex.guests] _ Hnd).
  intros field Hin Hname.
  repeat (apply elem_of_cons in Hin as [-> | Hin]); [| |by apply elem_of_nil in Hin].
  - by destruct Hname.
  - reflexivity.
Defined.

Lemma zodResolver_reads_field_names_witness :
  (forall field, field ∈ [Ex.guests] ->
     get ({[ "guests" := VNumber 3 ]} : gmap string value) (Field.name field)
     = get ({[ "guests" := VNumber 3; "coupon" := VString "X" ]} : gmap string value)
           (Field.name field))
  /\ zodResolver (E:=Sample.engine) (generateZodSchema (E:=Sample.engine) [Ex.guests])
                 {[ "guests" := VNumber 3 ]}
     = zodResolver (E:=Sample.engine) (generateZodSchema (E:=Sample.engine) [Ex.guests])
                   {[ "guests" := VNumber 3; "coupon" := VString "X" ]}.
Proof.
  assert (forall field, field ∈ [Ex.guests] ->
            get ({[ "guests" := VNumber 3 ]} : gmap string value) (Field.name field)
            = get ({[ "guests" := VNumber 3; "coupon" := VString "X" ]} : gmap string value)
                  (Field.name field)) as Hagree.
  { intros field Hin. apply list_elem_of_singleton in Hin as ->. reflexivity. }
  split; [exact Hagree|].
  exact (proj2 (@zodResolver_reads_field_names Sample.engine [Ex.guests] _ _) Hagree).
Defined.

Lemma email_rule_witness :
  Field.type Ex.contact = "email"
  /\ fieldError (E:=Sample.engine) Ex.contact (VString "ann@example.org") = None
  /\ fieldError (E:=Sample.engine) Ex.contact (VString "ann")
     = Some "Contact must be a valid email".
Proof.
  split; [reflexivity|]. split.
  - apply (@email_rule Sample.engine Ex.contact "ann@example.org" eq_refl). reflexivity.
  - apply (@email_rule Sample.engine Ex.contact "ann" eq_refl). reflexivity.
Defined.

Lemma unknown_type_as_text_witness :
  (Field.type More.note ∉ known_types)
  /\ schemaEntry (E:=Sample.engine) More.note
     = schemaEntry (E:=Sample.engine) (with_type "text" More.note).
Proof.
  assert (Field.type More.note ∉ known_types) as Hunknown
      by (apply (bool_decide_unpack _); reflexivity).
  split; [exact Hunknown|].
  exact (@unknown_type_as_text Sample.engine More.note Hunknown).
Defined.

Lemma text_rule_min_length_witness :
  (Field.type More.note ∉ known_types)
  /\ Field.minLength More.note = Some 3 /\ 3 <> 0
  /\ fieldError (E:=Sample.engine) More.note (VString "hi")
     = Some "Note must be at least 3 characters"
  /\ fieldError (E:=Sample.engine) More.note (VString "hello") = None.
Proof.
  assert (Field.type More.note ∉ known_types) as Hunknown
      by (apply (bool_decide_unpack _); reflexivity).
  assert (3 <> 0) as Hn by lia.
  split; [exact Hunknown|]. split; [reflexivity|]. split; [exact Hn|]. split.
  - apply (@text_rule_min_length Sample.engine More.note 3 "hi" Hunknown eq_refl Hn).
    simpl. lia.
  - apply (@text_rule_min_length Sample.engine More.note 3 "hello" Hunknown eq_refl Hn).
    simpl. lia.
Defined.

Lemma text_rule_free_witness :
  (Field.type Ex.nickname ∉ known_types)
  /\ (Field.minLength Ex.nickname = None \/ Field.minLength Ex.nickname = Some 0)
  /\ fieldError (E:=Sample.engine) Ex.nickname (VString "") = None.
Proof.
  assert (Field.type Ex.nickname ∉ known_types) as Hunknown
      by (apply (bool_decide_unpack _); reflexivity).
  split; [exact Hunknown|]. split; [left; reflexivity|].
  exact (@text_rule_free Sample.engine Ex.nickname "" Hunknown (or_introl eq_refl)).
Defined.

Lemma tel_rule_min_length_witness :
  Field.type More.mobile = "tel" /\ Field.minLength More.mobile = Some 7 /\ 7 <> 0
  /\ fieldError (E:=Sample.engine) More.mobile (VString "1234567") = None
  /\ fieldError (E:=Sample.engine) More.mobile (VString "123456")
     = Some "Mobile must be at least 7 characters".
Proof.
  assert (7 <> 0) as Hn by lia.
  split; [reflexivity|]. split; [reflexivity|]. split; [exact Hn|]. split.
  - apply (@tel_rule_min_length Sample.engine More.mobile 7 "1234567" eq_refl eq_refl Hn).
    simpl. lia.
  - apply (@tel_rule_min_length Sample.engine More.mobile 7 "123456" eq_refl eq_refl Hn).
    simpl. lia.
Defined.

Lemma number_rule_range_witness :
  Field.type Ex.guests = "number"
  /\ fieldError (E:=Sample.engine) Ex.guests (VNumber 5) = None
  /\ fieldError (E:=Sample.engine) Ex.guests (VNumber 11) <> None.
Proof.
  split; [reflexivity|]. split.
  - apply (@number_rule_range Sample.engine Ex.guests 5 eq_refl).
    split; intros ? [= <-]; lia.
  - intros Hnone.
    apply (@number_rule_range Sample.engine Ex.guests 11 eq_refl) in Hnone as [_ Hhi].
    specialize (Hhi 10 eq_refl). lia.
Defined.

Lemma number_rule_inverted_bounds_witness :
  Field.type More.party = "number"
  /\ Field.min More.party = Some 10 /\ Field.max More.party = Some 5 /\ 5 < 10
  /\ fieldError (E:=Sample.engine) More.party (VNumber 7) = Some "Party must be at least 10"
  /\ fieldError (E:=Sample.engine) More.party (VNumber 12) = Some "Party must be at most 5".
Proof.
  assert (5 < 10) as Hinv by lia.
  split; [reflexivity|]. split; [reflexivity|]. split; [reflexivity|]. split; [exact Hinv|].
  split.
  - exact (@number_rule_inverted_bounds Sample.engine More.party 10 5 7
             eq_refl eq_refl eq_refl Hinv).
  - exact (@number_rule_inverted_bounds Sample.engine More.party 10 5 12
             eq_refl eq_refl eq_refl Hinv).
Defined.

Lemma optional_only_skips_undefined_witness :
  VNull <> VUndefined
  /\ fieldError (E:=Sample.engine) (with_required false Ex.contact) VNull
     = fieldError (E:=Sample.engine) (with_required true Ex.contact) VNull.
Proof.
  assert (VNull <> VUndefined) as Hdef by discriminate.
  split; [exact Hdef|].
  exact (@optional_only_skips_undefined Sample.engine Ex.contact VNull Hdef).
Defined.

Lemma default_form_accepts_witness :
  accepts (E:=Sample.engine) (generateZodSchema (E:=Sample.engine) DEFAULT_FIELDS) Ex.booking.
Proof.
  apply (@default_form_accepts Sample.engine Ex.booking).
  exists "Ann", "ann@example.org", "2024-05-01T10:30".
  repeat split; try reflexivity. simpl. lia.
Defined.

Lemma booking_without_email_skips_notifier_witness :
  view Ex.ready_state = FormView
  /\ More.store_ok _ (createBooking More.walk_in) = inl "B123"
  /\ "B123" <> ""
  /\ truthy (get More.walk_in "email") = false
  /\ notificationStatus (final_state More.store_ok (onSubmit More.walk_in) Ex.ready_state)
     = Skipped
  /\ qrValue (final_state More.store_ok (onSubmit More.walk_in) Ex.ready_state)
     = Some "B123".
Proof.
  assert ("B123" <> "") as HX by discriminate.
  destruct (booking_without_email_skips_notifier
              More.store_ok Ex.ready_state More.walk_in "B123"
              eq_refl eq_refl HX eq_refl) as (_ & Hstatus & _ & Hqr & _).
  split; [reflexivity|]. split; [reflexivity|]. split; [exact HX|]. split; [reflexivity|].
  exact (conj Hstatus Hqr).
Defined.

Lemma notifier_success_is_reported_witness :
  view Ex.ready_state = FormView
  /\ More.store_ok _ (createBooking Ex.booking) = inl "B123"
  /\ "B123" <> ""
  /\ truthy (get Ex.booking "email") = true
  /\ More.store_ok _ (sendBookingEmail Ex.booking "B123") = inl tt
  /\ notificationStatus (final_state More.store_ok (onSubmit Ex.booking) Ex.ready_state)
     = Sent.
Proof.
  assert ("B123" <> "") as HX by discriminate.
  destruct (notifier_success_is_reported
              More.store_ok Ex.ready_state Ex.booking "B123"
              eq_refl eq_refl HX eq_refl eq_refl) as (_ & Hstatus & _).
  split; [reflexivity|]. split; [reflexivity|]. split; [exact HX|].
  split; [reflexivity|]. split; [reflexivity|]. exact Hstatus.
Defined.

Lemma creation_failure_keeps_form_witness :
  view Ex.ready_state = FormView
  /\ Ex.store_down _ (createBooking Ex.booking)
     = inr (ErrorObject (mkError (Some "permission-denied")))
  /\ view (final_state Ex.store_down (onSubmit Ex.booking) Ex.ready_state) = FormView
  /\ errorBanner (final_state Ex.store_down (onSubmit Ex.booking) Ex.ready_state)
     = Some "permission-denied".
Proof.
  destruct (creation_failure_keeps_form
              Ex.store_down Ex.ready_state Ex.booking (mkError (Some "permission-denied"))
              eq_refl eq_refl) as (Hview & _ & Hbanner & _).
  split; [reflexivity|]. split; [reflexivity|]. exact (conj Hview Hbanner).
Defined.

Lemma retry_after_failure_confirms_witness :
  view Ex.ready_state = FormView
  /\ Ex.store_down _ (createBooking Ex.booking)
     = inr (ErrorObject (mkError (Some "permission-denied")))
  /\ More.store_ok _ (createBooking Ex.booking) = inl "B123"
  /\ "B123" <> ""
  /\ phase (final_state More.store_ok (onSubmit Ex.booking)
              (final_state Ex.store_down (onSubmit Ex.booking) Ex.ready_state))
     = Confirmed.
Proof.
  assert ("B123" <> "") as HX by discriminate.
  destruct (retry_after_failure_confirms
              Ex.store_down More.store_ok Ex.ready_state Ex.booking Ex.booking
              (ErrorObject (mkError (Some "permission-denied"))) "B123"
              eq_refl eq_refl eq_refl HX) as (Hphase & _).
  split; [reflexivity|]. split; [reflexivity|]. split; [reflexivity|].
  split; [exact HX | exact Hphase].
Defined.

Lemma loadFormFields_configured_witness :
  More.store_ok _ getFormFields = inl (Some (mkSettings (Some [Ex.guests; Ex.phone])))
  /\ settings_fields (Some (mkSettings (Some [Ex.guests; Ex.phone])))
     = Some [Ex.guests; Ex.phone]
  /\ formFields (final_state More.store_ok loadFormFields initialState)
     = [Ex.guests; Ex.phone].
Proof.
  destruct (loadFormFields_configured More.store_ok _ [Ex.guests; Ex.phone]
              eq_refl eq_refl) as (_ & Hfields & _).
  split; [reflexivity|]. split; [reflexivity|]. exact Hfields.
Defined.

Lemma blocked_click_reaches_no_collaborator_witness :
  (~ accepts (E:=Sample.engine)
       (generateZodSchema (E:=Sample.engine) (formFields (state Ex.ready))) ∅
   \/ view (state Ex.ready) <> FormView \/ submitDisabled (state Ex.ready) = true)
  /\ calls (click (E:=Sample.engine) ∅ Ex.ready) = calls Ex.ready.
Proof.
  assert (~ accepts (E:=Sample.engine)
              (generateZodSchema (E:=Sample.engine) (formFields (state Ex.ready))) ∅
          \/ view (state Ex.ready) <> FormView \/ submitDisabled (state Ex.ready) = true)
    as Hblocked.
  { left. intros Haccepts. unfold accepts in Haccepts.
    apply (f_equal (fun m => m !! "email")) in Haccepts.
    vm_compute in Haccepts. discriminate Haccepts. }
  split; [exact Hblocked|].
  apply (@blocked_click_reaches_no_collaborator Sample.engine ∅ Ex.ready Hblocked).
Defined.

Lemma accepted_click_starts_submission_witness :
  view (state Ex.ready) = FormView /\ submitDisabled (state Ex.ready) = false
  /\ accepts (E:=Sample.engine)
       (generateZodSchema (E:=Sample.engine) (formFields (state Ex.ready))) Ex.booking
  /\ phase (state (click (E:=Sample.engine) Ex.booking Ex.ready)) = Submitting.
Proof.
  assert (accepts (E:=Sample.engine)
            (generateZodSchema (E:=Sample.engine) (formFields (state Ex.ready))) Ex.booking)
    as Haccepts by (vm_compute; reflexivity).
  split; [reflexivity|]. split; [reflexivity|]. split; [exact Haccepts|].
  apply (@accepted_click_starts_submission Sample.engine Ex.booking Ex.ready
           eq_refl eq_refl Haccepts).
Defined.

Lemma failed_load_leaves_empty_form_witness :
  Ex.store_down _ getFormFields = inr (ErrorObject (mkError (Some "unavailable")))
  /\ calls (click (E:=Sample.engine) Ex.booking (settle Ex.store_down 0 mount))
     = [Call getFormFields; Call (createBooking ∅)].
Proof.
  split; [reflexivity|].
  apply (@failed_load_leaves_empty_form Sample.engine Ex.store_down
           (ErrorObject (mkError (Some "unavailable"))) Ex.booking eq_refl).
Defined.

Lemma notifier_needs_field_named_email_witness :
  ("email" ∉ Field.name <$> [Ex.guests; Ex.contact])
  /\ issued Ex.store_empty
       (onSubmit (submitted (E:=Sample.engine) [Ex.guests; Ex.contact]
                    {[ "guests" := VNumber 7; "contact" := VString "ann@example.org" ]}))
       Ex.ready_state
     = [Call (createBooking
                (submitted (E:=Sample.engine) [Ex.guests; Ex.contact]
                   {[ "guests" := VNumber 7; "contact" := VString "ann@example.org" ]}))].
Proof.
  assert ("email" ∉ Field.name <$> [Ex.guests; Ex.contact]) as Hno
      by (apply (bool_decide_unpack _); reflexivity).
  split; [exact Hno|].
  exact (@notifier_needs_field_named_email Sample.engine [Ex.guests; Ex.contact] _
           Ex.store_empty Ex.ready_state Hno).
Defined.
